(** * alchemy: a webhook bot that turns issue text into commits

    A shallow embedding of [alchemy/github.py] and [alchemy/loader.py]
    and the properties of the target extractor, the response splitter,
    the cache layer and the event handlers.

    Conventions.
    - A Python [str] is a [string]: the sequence of its code points,
      restricted to code points below 256.  [bytes] are [string] too.
    - Python [int] is [Z].
    - Exceptions are values of [exn]; a computation that touches the
      outside world is a function from [world] to a result and a
      [world] (see [Module Eff]).
    - Functions of the third-party libraries (PyGithub, llama_index,
      pickle, json, pathlib) are fields of the records [GithubApi]
      and [IndexLib]: the theorems hold for every behaviour of them. *)

From Stdlib Require Import ZArith Ascii String DecimalString.
From stdpp Require Import gmap strings list.

Local Open Scope string_scope.

(** ** Python's string methods *)

Module PyStr.

Definition LF : ascii := ascii_of_nat 10.
Definition CR : ascii := ascii_of_nat 13.

Definition code (c : ascii) : N := N_of_ascii c.

Definition code_in (c : ascii) (l : list N) : bool :=
  existsb (N.eqb (code c)) l.

(** Line boundaries of [str.splitlines]: LF, VT, FF, CR, FS, GS, RS and
    NEL; CR LF counts once. *)
Definition is_linebreak (c : ascii) : bool :=
  code_in c [10; 11; 12; 13; 28; 29; 30; 133]%N.

(** [str.isspace] on one code point below 256. *)
Definition is_space (c : ascii) : bool :=
  code_in c [9; 10; 11; 12; 13; 28; 29; 30; 31; 32; 133; 160]%N.

(** [\d] on a code point below 256: the ten ASCII digits. *)
Definition is_digit (c : ascii) : bool :=
  (48 <=? code c)%N && (code c <=? 57)%N.

(** The first line of what is left is extended by [c]. *)
Definition push_char (c : ascii) (ls : list string) : list string :=
  match ls with
  | [] => [String c ""]
  | l :: ls' => String c l :: ls'
  end.

(** [after_cr]: the previous character was CR, so a LF here belongs to
    the same boundary. *)
Fixpoint splitlines_from (after_cr : bool) (s : string) : list string :=
  match s with
  | "" => []
  | String c s' =>
      if after_cr && Ascii.eqb c LF then splitlines_from false s'
      else if is_linebreak c then "" :: splitlines_from (Ascii.eqb c CR) s'
      else push_char c (splitlines_from false s')
  end.

(** [s.splitlines()] *)
Definition splitlines (s : string) : list string := splitlines_from false s.

(** [s.startswith(p)] *)
Fixpoint startswith (p s : string) : bool :=
  match p, s with
  | "", _ => true
  | String a p', String b s' => Ascii.eqb a b && startswith p' s'
  | String _ _, "" => false
  end.

(** What follows the prefix [p] in [s], when [s] starts with [p]. *)
Fixpoint strip_prefix (p s : string) : option string :=
  match p, s with
  | "", _ => Some s
  | String a p', String b s' =>
      if Ascii.eqb a b then strip_prefix p' s' else None
  | String _ _, "" => None
  end.

(** [s.split(sep)] for a non-empty [sep]: [skip] counts the characters
    of a separator that was recognised and is still being passed over,
    [cur] is the piece being collected. *)
Fixpoint split_from (sep : string) (skip : nat) (cur : string) (s : string)
  : list string :=
  match s with
  | "" => [cur]
  | String c s' =>
      match skip with
      | S k => split_from sep k cur s'
      | O =>
          if startswith sep s
          then cur :: split_from sep (String.length sep - 1) "" s'
          else split_from sep 0 (cur +:+ String c "") s'
      end
  end.

Definition split (sep s : string) : list string := split_from sep 0 "" s.

Fixpoint lstrip (s : string) : string :=
  match s with
  | String c s' => if is_space c then lstrip s' else s
  | "" => ""
  end.

Fixpoint rstrip (s : string) : string :=
  match s with
  | "" => ""
  | String c s' =>
      match rstrip s' with
      | "" => if is_space c then "" else String c ""
      | r => String c r
      end
  end.

(** [s.strip()] *)
Definition strip (s : string) : string := rstrip (lstrip s).

Definition digit_value (c : ascii) : Z := Z.of_N (code c) - 48.

Fixpoint int_from (acc : Z) (s : string) : Z :=
  match s with
  | "" => acc
  | String c s' => int_from (10 * acc + digit_value c) s'
  end.

(** [int(s)] for a string of decimal digits, which is all the source
    passes to it.  Python integers are unbounded; the interpreter's
    optional cap on the number of digits is not modelled. *)
Definition int (s : string) : Z := int_from 0 s.

(** Every character of [s] satisfies [p]. *)
Fixpoint all_chars (p : ascii -> bool) (s : string) : bool :=
  match s with
  | "" => true
  | String c s' => p c && all_chars p s'
  end.

(** The first character of [s], if any, does not satisfy [p]. *)
Definition stops (p : ascii -> bool) (s : string) : bool :=
  match s with
  | "" => true
  | String c _ => negb (p c)
  end.

End PyStr.

(** ** The fragment of [re] that [_target_regex] uses

    A backtracking matcher in continuation-passing style: the
    continuation is the rest of the pattern, [None] makes the matcher
    try its next alternative.  [+] and [?] are greedy: the longer
    match is tried first.  Repetition is applied to character classes
    only, as in the source pattern. *)

Module Re.
Import PyStr.

Inductive regex :=
| Lit (s : string)                    (* the characters of [s] *)
| Dot                                 (* [.]: anything but LF *)
| Plus (cls : ascii -> bool)          (* [[...]+] *)
| Group (name : string) (r : regex)   (* [(?P<name>r)] *)
| Opt (r : regex)                     (* [(?:r)?] *)
| Seq (r1 r2 : regex).

Definition captures := list (string * string).

Fixpoint star_k {R} (cls : ascii -> bool) (s : string)
  (k : string -> option R) : option R :=
  match s with
  | String c s' =>
      if cls c
      then match star_k cls s' k with
           | Some r => Some r
           | None => k s
           end
      else k s
  | "" => k ""
  end.

Definition plus_k {R} (cls : ascii -> bool) (s : string)
  (k : string -> option R) : option R :=
  match s with
  | String c s' => if cls c then star_k cls s' k else None
  | "" => None
  end.

(** The part of [s] in front of its suffix [rest]. *)
Definition consumed (s rest : string) : string :=
  substring 0 (String.length s - String.length rest) s.

Fixpoint rmatch {R} (r : regex) (s : string) (caps : captures)
  (k : string -> captures -> option R) : option R :=
  match r with
  | Lit l =>
      match strip_prefix l s with
      | Some s' => k s' caps
      | None => None
      end
  | Dot =>
      match s with
      | String c s' => if Ascii.eqb c LF then None else k s' caps
      | "" => None
      end
  | Plus cls => plus_k cls s (fun s' => k s' caps)
  | Group n r1 =>
      rmatch r1 s caps (fun s' caps' => k s' ((n, consumed s s') :: caps'))
  | Opt r1 =>
      match rmatch r1 s caps k with
      | Some x => Some x
      | None => k s caps
      end
  | Seq r1 r2 =>
      rmatch r1 s caps (fun s' caps' => rmatch r2 s' caps' k)
  end.

(** [pattern.match(s)]: anchored at the start of [s], free at its end. *)
Definition re_match (r : regex) (s : string) : option captures :=
  rmatch r s [] (fun _ caps => Some caps).

(** [m.group(name)]: [None] for a group that took no part. *)
Fixpoint group (name : string) (caps : captures) : option string :=
  match caps with
  | [] => None
  | (n, v) :: caps' => if String.eqb n name then Some v else group name caps'
  end.

Fixpoint seq (rs : list regex) : regex :=
  match rs with
  | [] => Lit ""
  | [r] => r
  | r :: rs' => Seq r (seq rs')
  end.

Definition not_char (c0 : string) (c : ascii) : bool :=
  match c0 with
  | String a _ => negb (Ascii.eqb c a)
  | "" => true
  end.

End Re.

(** ** Exceptions, the outside world and the monad of the embedding *)

Module Eff.

Inductive exn :=
| AssertionError
| TypeError
| ValueError
| IndexError
| AttributeError
| FileNotFoundError
| SyntaxError                    (* raised by the compiler *)
| LibraryError (msg : string).   (* raised inside a third-party call *)

Inductive result (A : Type) :=
| Ok (a : A)
| Raise (e : exn).
Arguments Ok {A} a.
Arguments Raise {A} e.

(** Python's truth test, [bool(x)]. *)
Class Truthy (A : Type) := truthy : A -> bool.
#[export] Instance truthy_bool : Truthy bool := fun b => b.
#[export] Instance truthy_Z : Truthy Z := fun z => negb (z =? 0)%Z.
#[export] Instance truthy_string : Truthy string :=
  fun s => match s with "" => false | _ => true end.
#[export] Instance truthy_list {A} : Truthy (list A) :=
  fun l => match l with [] => false | _ => true end.
(** [None] is false, anything else answers for itself. *)
#[export] Instance truthy_option {A} `{Truthy A} : Truthy (option A) :=
  fun o => match o with Some a => truthy a | None => false end.

(** *** Objects of the GitHub client *)

Record GitTree := { tree_sha : string }.
Record GitCommit := { sha : string; tree : GitTree }.
(** [branch_commit] stands for [branch.commit.commit]. *)
Record Branch := { branch_name : string; branch_commit : GitCommit }.
Record GitRef := { ref : string }.
Record PullRequest := { number : Z }.
Record Repository := { full_name : string; default_branch : string }.

(** Objects without [__bool__] or [__len__] are true. *)
#[export] Instance truthy_GitCommit : Truthy GitCommit := fun _ => true.
#[export] Instance truthy_Branch : Truthy Branch := fun _ => true.
#[export] Instance truthy_GitRef : Truthy GitRef := fun _ => true.

(** *** Calls that leave the process, in the order they were made *)

Inductive event :=
| GetBranch (branch : string)
| CreateGitTree (path mode type content : string) (base_tree : GitTree)
| CreateGitCommit (message : string) (tree : GitTree) (parents : list GitCommit)
| GetGitRef (ref : string)
| EditRef (r : GitRef) (sha : string)
| CreateGitRef (ref sha : string)
| CreatePull (title body base head : string)
| GetPull (number : Z)
| CreateReviewCommentReply (comment_id body : string)
| LoadData (commit_sha : option string) (branch : string)
| FromDocuments
| Query (prompt : string).

Definition is_commit (e : event) : bool :=
  match e with CreateGitCommit _ _ _ => true | _ => false end.
Definition is_ref_update (e : event) : bool :=
  match e with EditRef _ _ | CreateGitRef _ _ => true | _ => false end.
Definition is_pull (e : event) : bool :=
  match e with CreatePull _ _ _ _ => true | _ => false end.
(** Calls that change nothing on the GitHub side. *)
Definition read_only (e : event) : bool :=
  match e with
  | GetBranch _ | GetGitRef _ | GetPull _
  | LoadData _ _ | FromDocuments | Query _ => true
  | _ => false
  end.

(** Timestamps are floats in the source.  Only their difference and
    its comparison with an [int] are used, so they are kept abstract. *)
Class TimeOps := {
  time : Type;
  time_sub : time -> time -> time;         (* [a - b] *)
  time_lt_int : time -> Z -> bool;         (* [a < n] *)
}.

Section World.
Context `{TimeOps}.

Record file := { st_mtime : time; content : string }.

(** [fs]: the files under the cache directory, by path;
    [clock]: what [time.time()] reads;
    [trace]: the outside calls made so far, oldest first.
    The files are regular files the process may read and write: a
    directory or an unreadable entry at a cache path, for which
    [exists()] is true and [open] raises, is outside the model. *)
Record world := {
  fs : gmap string file;
  clock : time;
  trace : list event;
}.

Definition M (A : Type) : Type := world -> result A * world.

Definition ret {A} (a : A) : M A := fun w => (Ok a, w).
Definition raise {A} (e : exn) : M A := fun w => (Raise e, w).
Definition bind {A B} (m : M A) (k : A -> M B) : M B :=
  fun w =>
    match m w with
    | (Ok a, w') => k a w'
    | (Raise e, w') => (Raise e, w')
    end.
Definition lift {A} (r : result A) : M A := fun w => (r, w).

(** [assert cond] *)
Definition assert_ (cond : bool) : M unit :=
  if cond then ret tt else raise AssertionError.

(** An outside call: the answer may depend on everything that
    happened before; the call is recorded whether it raises or not. *)
Definition call {A} (e : event) (answer : list event -> result A) : M A :=
  fun w =>
    (answer (trace w),
     {| fs := fs w; clock := clock w; trace := trace w ++ [e] |}).

(** [m] appends to the trace, and only calls that satisfy [P]. *)
Definition appends {A} (P : event -> bool) (m : M A) : Prop :=
  forall w, exists es,
    trace (snd (m w)) = (trace w ++ es)%list /\ forallb P es = true.

End World.

(** *** Binding arguments to parameters

    A call raises [TypeError] before the body runs when its arguments
    do not fit the [def]: too many positional arguments, a keyword that
    names no free parameter, or a parameter without default left
    unbound. *)

Record signature := {
  params : list string;    (* in order *)
  defaults : nat;          (* how many trailing parameters have a default *)
}.

Definition mem (x : string) (l : list string) : bool :=
  existsb (String.eqb x) l.

Definition binds (sg : signature) (npos : nat) (kw : list string) : bool :=
  let ps := params sg in
  (npos <=? length ps)%nat
  && forallb (fun k => mem k (drop npos ps)) kw
  && forallb (fun p => mem p kw)
       (drop npos (take (length ps - defaults sg) ps)).

Definition pycall `{TimeOps} {A} (sg : signature) (npos : nat)
  (kw : list string) (body : M A) : M A :=
  if binds sg npos kw then body else raise TypeError.

End Eff.

Declare Scope py_scope.
Delimit Scope py_scope with py.
Notation "'let*' x ':=' m 'in' k" := (Eff.bind m (fun x => k))
  (at level 10, x pattern, m at level 100, k at level 200) : py_scope.
Notation "m ';;' k" := (Eff.bind m (fun _ => k))
  (at level 100, k at level 200, right associativity) : py_scope.

(** ** alchemy/loader.py *)

Module Loader.
Import PyStr Eff.
Local Open Scope py_scope.

Inductive FilterType := INCLUDE | EXCLUDE.

Definition DEFAULT_DIRECTORY_FILTERS : list string * FilterType :=
  ([".git"; ".yarn"; "node_modules"], EXCLUDE).
Definition DEFAULT_FILE_EXT_FILTERS : list string * FilterType :=
  ([".zip"], EXCLUDE).

Record RepoOptions := {
  owner : string;
  repo : string;
  branch : string;                                          (* = "main" *)
  commit_sha : option string;                               (* = None *)
  filter_directories : option (list string * FilterType);
  filter_file_extensions : option (list string * FilterType);
  verbose : bool;                                           (* = True *)
  concurrent_requests : Z;                                  (* = 10 *)
}.

(** [RepoOptions(owner=..., repo=...)] *)
Definition RepoOptions_defaults (o r : string) : RepoOptions :=
  {| owner := o; repo := r; branch := "main"; commit_sha := None;
     filter_directories := Some DEFAULT_DIRECTORY_FILTERS;
     filter_file_extensions := Some DEFAULT_FILE_EXT_FILTERS;
     verbose := true; concurrent_requests := 10 |}.

Definition with_branch (r : RepoOptions) (b : string) : RepoOptions :=
  {| owner := owner r; repo := repo r; branch := b;
     commit_sha := commit_sha r;
     filter_directories := filter_directories r;
     filter_file_extensions := filter_file_extensions r;
     verbose := verbose r; concurrent_requests := concurrent_requests r |}.

Record CacheOptions := {
  path : string;          (* = "~/.alchemy" *)
  force_update : bool;    (* = False *)
  max_age : Z;            (* = 60 *)
}.

(** [CacheOptions()] *)
Definition CacheOptions_defaults : CacheOptions :=
  {| path := "~/.alchemy"; force_update := false; max_age := 60 |}.

(** What is handed to [_put_cache]: [bytes] or [str]. *)
Inductive data :=
| Bytes (b : string)
| Text (s : string).

(** The third-party functions the loader calls.  [ModelOptions] is
    passed through to the language-model client and never inspected
    here, so it stays abstract, as do the index and the documents. *)
Class IndexLib := {
  Index : Type;
  Documents : Type;
  ModelOptions : Type;
  ServiceContext : Type;
  (* ModelOptions(model_name="gpt-4", temperature=0.2, request_timeout=600) *)
  gpt4_options : ModelOptions;
  (* ServiceContext.from_defaults(llm_predictor=LLMPredictor(llm=
     ChatOpenAI( the fields of model_opts that are true ))) *)
  service_context : ModelOptions -> ServiceContext;
  (* GPTSimpleVectorIndex.load_from_string *)
  load_from_string : string -> result Index;
  (* GPTSimpleVectorIndex.from_documents(docs, service_context=...) *)
  from_documents : list event -> Documents -> ServiceContext -> result Index;
  (* json.dumps(index.save_to_dict()) *)
  index_to_json : Index -> string;
  pickle_loads : string -> result Documents;
  pickle_dumps : Documents -> string;
  (* GithubRepositoryReader(GithubClient(token), **github_opts)
       .load_data(commit_sha, branch) *)
  load_data : list event -> RepoOptions -> option string -> string
              -> result Documents;
  (* index.query(prompt).response *)
  query : list event -> Index -> string -> result string;
  (* Path(p).expanduser() and [dir / name] *)
  expanduser : string -> string;
  joinpath : string -> string -> string;
  (* the bytes a text-mode file receives for a [str] *)
  encode : string -> string;
}.

(** [_get_cache_name]: the f-string picks [commit_sha] when it is
    true (neither [None] nor empty) and [branch] otherwise. *)
Definition _get_cache_name (repo_opts : RepoOptions) : string :=
  let name := owner repo_opts +:+ "-" +:+ repo repo_opts in
  name +:+ "-" +:+
    (match commit_sha repo_opts with
     | Some s => if truthy s then s else branch repo_opts
     | None => branch repo_opts
     end).

Section Cache.
Context `{TimeOps} `{IndexLib}.

Definition _get_cache_path (repo_opts : RepoOptions)
  (cache_opts : CacheOptions) (ext : option string) : string :=
  let cache_path := expanduser (path cache_opts) in
  let name := _get_cache_name repo_opts in
  let name := name +:+
    (match ext with
     | Some e => if truthy e then "." +:+ e else ""
     | None => ""
     end) in
  joinpath cache_path name.

(** [path.stat()] *)
Definition stat (p : string) : M file :=
  fun w =>
    match fs w !! p with
    | Some f => (Ok f, w)
    | None => (Raise FileNotFoundError, w)
    end.

(** [time.time()] *)
Definition time_time : M time := fun w => (Ok (clock w), w).

(** [path.exists()] *)
Definition exists_ (p : string) : M bool :=
  fun w => (Ok (bool_decide (is_Some (fs w !! p))), w).

(** [open(p, "rb").read()] *)
Definition read_bytes (p : string) : M string :=
  fun w =>
    match fs w !! p with
    | Some f => (Ok (content f), w)
    | None => (Raise FileNotFoundError, w)
    end.

(** [os.makedirs(p.parent, exist_ok=True)] and [open(p, mode).write(d)]:
    the file at [p] is replaced and stamped with the current time. *)
Definition write_file (p : string) (d : data) : M unit :=
  fun w =>
    let bytes := match d with Bytes b => b | Text s => encode s end in
    (Ok tt,
     {| fs := <[p := {| st_mtime := clock w; content := bytes |}]> (fs w);
        clock := clock w; trace := trace w |}).

Definition _cache_is_usable (p : string) (cache_opts : CacheOptions) : M bool :=
  let* now := time_time in
  let* st := stat p in
  ret (time_lt_int (time_sub now (st_mtime st)) (max_age cache_opts)
       || negb (force_update cache_opts)).

(** Falls off the end, returning [None], when the file is missing or
    not usable. *)
Definition _get_cache (ext : string) (repo_opts : RepoOptions)
  (cache_opts : CacheOptions) : M (option string) :=
  let cache_path := _get_cache_path repo_opts cache_opts (Some ext) in
  let* there := exists_ cache_path in
  let* usable := if there then _cache_is_usable cache_path cache_opts
                 else ret false in
  if usable
  then let* b := read_bytes cache_path in ret (Some b)
  else ret None.

Definition _put_cache (d : data) (ext : string) (repo_opts : RepoOptions)
  (cache_opts : CacheOptions) : M unit :=
  let cache_path := _get_cache_path repo_opts cache_opts (Some ext) in
  write_file cache_path d.

Definition _load_documents (repo_opts : RepoOptions)
  (cache_opts : CacheOptions) : M Documents :=
  let EXT := "docs.pkl" in
  let* cache := _get_cache EXT repo_opts cache_opts in
  if truthy cache
  then lift (pickle_loads (default "" cache))
  else
    (* github_opts: repo_opts without commit_sha and branch *)
    let* docs := call (LoadData (commit_sha repo_opts) (branch repo_opts))
                   (fun h => load_data h repo_opts (commit_sha repo_opts)
                               (branch repo_opts)) in
    _put_cache (Bytes (pickle_dumps docs)) EXT repo_opts cache_opts;;
    ret docs.

Definition create_simple_vector_index (repo_opts : RepoOptions)
  (cache_opts : CacheOptions) (model_opts : ModelOptions) : M Index :=
  let EXT := "sv.idx.json" in
  let context := service_context model_opts in
  let* cache := _get_cache EXT repo_opts cache_opts in
  if truthy cache
  then lift (load_from_string (default "" cache))
  else
    let* docs := _load_documents repo_opts cache_opts in
    let* index := call FromDocuments
                    (fun h => from_documents h docs context) in
    _put_cache (Text (index_to_json index)) EXT repo_opts cache_opts;;
    ret index.

End Cache.
End Loader.

(** ** alchemy/github.py

    Each function is modelled on its own, as it is written: a call
    whose arguments do not fit the callee raises [TypeError] where it
    is made (see [pycall]). *)

Module Github.
Import PyStr Eff.
Local Open Scope py_scope.

Record EditTarget := {
  path : string;       (* file path relative to project root *)
  commit : string;     (* git commit ID *)
  block : Z * Z;       (* start and end line numbers *)
}.

Record EditCommand := {
  repo : Repository;
  command : string;
  branch : string;
  targets : option (list EditTarget);    (* = None *)
  pr : option string;                    (* = None *)
}.

Definition not_slash : ascii -> bool := Re.not_char "/".
Definition not_hash : ascii -> bool := Re.not_char "#".

(** https://github.com/[^/]+/[^/]+/blob/(?P<commit>[^/]+)/
    (?P<path_str>[^#]+)#L(?P<start>\d+)(?:-L(?P<end>\d+))?
    The dot of [github.com] is not escaped in the source. *)
Definition _target_regex : Re.regex :=
  Re.seq
    [ Re.Lit "https://github"; Re.Dot; Re.Lit "com/";
      Re.Plus not_slash; Re.Lit "/";
      Re.Plus not_slash; Re.Lit "/blob/";
      Re.Group "commit" (Re.Plus not_slash); Re.Lit "/";
      Re.Group "path_str" (Re.Plus not_hash); Re.Lit "#L";
      Re.Group "start" (Re.Plus is_digit);
      Re.Opt (Re.Seq (Re.Lit "-L") (Re.Group "end" (Re.Plus is_digit))) ].

Definition _RESP_PATH_PREFIX : string := "%%%".

Definition nl : string := String LF "".

Definition _PROMPT_HELPER : string :=
  nl +:+
  "You are a software developer helping to refactor, improve, and maintain a codebase. When prompted to "
  +:+ nl +:+
  "perform an update, you must return the entire updated files. Format your responses as plaintext without "
  +:+ nl +:+
  "markdown, as if you were editing the file directly, and prefix each file with '"
  +:+ _RESP_PATH_PREFIX +:+ "' followed"
  +:+ nl +:+
  "by a space and the filename. eg: '" +:+ _RESP_PATH_PREFIX
  +:+ " relative/path/to/file.py'"
  +:+ nl.

(** The target one line yields, if the pattern matches at its start.
    The [Path] object is represented by the string it is made from. *)
Definition target_of_line (line : string) : option EditTarget :=
  match Re.re_match _target_regex line with
  | Some matches =>
      let commit := default "" (Re.group "commit" matches) in
      let path_str := default "" (Re.group "path_str" matches) in
      let start := int (default "" (Re.group "start" matches)) in
      let end_ := Re.group "end" matches in
      let end_ := if truthy end_ then int (default "" end_) else (start + 1)%Z in
      Some {| path := path_str; commit := commit; block := (start, end_) |}
  | None => None
  end.

(** The targets the generator yields, in order. *)
Definition _get_targets_from_body (haystack : string) : list EditTarget :=
  omap target_of_line (splitlines haystack).

(** *** The response splitter (lines 119 to 126) *)

(** [namedtuple("OutputFile", ["path", "content"])] *)
Record OutputFile := { of_path : string; of_content : string }.

(** [f.content = v] on a named tuple: its fields are read-only, the
    assignment raises. *)
Definition OutputFile_set_content (f : OutputFile) (v : string)
  : result OutputFile :=
  Raise AttributeError.

(** [xs[-1]] *)
Definition last_item {A} (xs : list A) : result A :=
  match last xs with
  | Some x => Ok x
  | None => Raise IndexError
  end.

Fixpoint split_response_lines (lines : list string)
  (output_files : list OutputFile) : result (list OutputFile) :=
  match lines with
  | [] => Ok output_files
  | line :: rest =>
      if startswith _RESP_PATH_PREFIX line
      then
        (* _, key = line.split(_RESP_PATH_PREFIX) *)
        match split _RESP_PATH_PREFIX line with
        | [_; key] =>
            split_response_lines rest
              (output_files ++ [{| of_path := strip key; of_content := "" |}])
        | _ => Raise ValueError
        end
      else
        (* output_files[-1].content += line + "\n" *)
        match last_item output_files with
        | Ok f =>
            match OutputFile_set_content f (of_content f +:+ line +:+ nl) with
            | Ok f' => split_response_lines rest (removelast output_files ++ [f'])
            | Raise e => Raise e
            end
        | Raise e => Raise e
        end
  end.

Definition split_response (resp : string) : result (list OutputFile) :=
  split_response_lines (splitlines resp) [].

(** *** Signatures of the functions and classes that are called *)

Definition EditCommand_sig : signature :=
  {| params := ["repo"; "command"; "branch"; "targets"; "pr"]; defaults := 2 |}.
Definition RepoOptions_sig : signature :=
  {| params := ["owner"; "repo"; "branch"; "commit_sha"; "filter_directories";
                "filter_file_extensions"; "verbose"; "concurrent_requests"];
     defaults := 6 |}.
Definition create_simple_vector_index_sig : signature :=
  {| params := ["repo_opts"; "cache_opts"; "model_opts"]; defaults := 0 |}.
Definition _create_or_update_branch_sig : signature :=
  {| params := ["cmd"; "commit_id"]; defaults := 0 |}.
Definition _update_file_content_sig : signature :=
  {| params := ["repo"; "cmd"; "path"; "content"; "parent"]; defaults := 1 |}.
Definition _make_targeted_changes_sig : signature :=
  {| params := []; defaults := 0 |}.
Definition _make_freeform_changes_sig : signature :=
  {| params := ["repo"; "cmd"]; defaults := 0 |}.
Definition _make_changes_sig : signature :=
  {| params := ["repo"; "cmd"]; defaults := 0 |}.

(** The calls of the GitHub client, each answering from the history
    of outside calls. *)
Class GithubApi := {
  get_branch : list event -> Repository -> string -> result Branch;
  create_git_tree : list event -> Repository -> string -> string -> string
                    -> string -> GitTree -> result GitTree;
  create_git_commit : list event -> Repository -> string -> GitTree
                      -> list GitCommit -> result GitCommit;
  get_git_ref : list event -> Repository -> string -> result GitRef;
  ref_edit : list event -> GitRef -> string -> result unit;
  create_git_ref : list event -> Repository -> string -> string
                   -> result GitRef;
  create_pull : list event -> Repository -> string -> string -> string
                -> string -> result PullRequest;
  get_pull : list event -> Repository -> Z -> result PullRequest;
  create_review_comment_reply : list event -> PullRequest -> string
                                -> string -> result unit;
  (* str(branch), as an f-string renders the object *)
  branch_str : Branch -> string;
}.

(** A delivery as [github_bot_api] hands it to a handler: an object
    whose JSON body is the [payload] attribute (line 58 reads
    [event.payload[...]]). *)
Record Event (P : Type) := { payload : P }.
Arguments payload {P} e.

(** [event[key]]: the class defines no [__getitem__], so the subscript
    raises [TypeError] whatever the key and the payload hold. *)
Definition getitem {P} (event : Event P) (key : string) : result P :=
  Raise TypeError.

(** The JSON body of an [issues] delivery, as far as the handler
    means to read it. *)
Record IssuePayload := {
  issue_body : option string;      (* null when the issue has no text *)
  issue_number : Z;
  issue_title : string;
}.

(** The JSON body of a review-comment delivery, as far as the handler
    means to read it. *)
Record ReviewCommentPayload := {
  pull_request_user_id : Z;
  pull_request_head_ref : string;
  pull_request_number : Z;
  comment_user_id : Z;
  comment_path : string;
  comment_commit_id : string;
  comment_body : string;
  start_line : option Z;
  line : option Z;
}.

(** [str(n)] for an integer. *)
Definition str_of_int (n : Z) : string :=
  DecimalString.NilZero.string_of_int (Z.to_int n).

(** [int(x)] for a JSON number or null. *)
Definition int_of_json (x : option Z) : result Z :=
  match x with
  | Some n => Ok n
  | None => Raise TypeError
  end.

Section Handlers.
Context `{TimeOps} `{Loader.IndexLib} `{GithubApi}.
Variable GH_BOT_UID : Z.

Definition _create_or_update_branch (cmd : EditCommand) (commit_id : string)
  : M unit :=
  let* r := call (GetGitRef ("heads/" +:+ branch cmd))
              (fun h => get_git_ref h (repo cmd) ("heads/" +:+ branch cmd)) in
  (if truthy r
   then call (EditRef r commit_id) (fun h => ref_edit h r commit_id)
   else ret tt);;
  let* _ := call (CreateGitRef ("refs/heads/" +:+ branch cmd) commit_id)
              (fun h => create_git_ref h (repo cmd)
                          ("refs/heads/" +:+ branch cmd) commit_id) in
  ret tt.

Definition _update_file_content (repo : Repository) (cmd : EditCommand)
  (path content : string) (parent : option GitCommit) : M GitCommit :=
  (* branch = repo.get_branch(cmd.branch)
              or repo.get_branch(repo.default_branch)
     parent = branch.commit.commit *)
  let head_of_branch :=
    let* b := call (GetBranch (branch cmd))
                (fun h => get_branch h repo (branch cmd)) in
    let* b := if truthy b then ret b
              else call (GetBranch (default_branch repo))
                     (fun h => get_branch h repo (default_branch repo)) in
    ret (branch_commit b) in
  let* parent :=
    match parent with
    | Some p => if truthy p then ret p else head_of_branch
    | None => head_of_branch
    end in
  let* t := call (CreateGitTree path "100644" "blob" content (tree parent))
              (fun h => create_git_tree h repo path "100644" "blob" content
                          (tree parent)) in
  call (CreateGitCommit ("Update " +:+ path) t [parent])
    (fun h => create_git_commit h repo ("Update " +:+ path) t [parent]).

Definition _make_targeted_changes : M unit := ret tt.

(** Lines 128 to 131.  [_create_or_update_branch] is called with three
    arguments ([repo], [branch], [prev_commit.sha]); the body given to
    [pycall] is what its two parameters would receive. *)
Fixpoint write_output_files (repo : Repository) (cmd : EditCommand)
  (fs : list OutputFile) (prev_commit : option GitCommit) : M unit :=
  match fs with
  | [] => ret tt
  | f :: fs' =>
      let* c := pycall _update_file_content_sig 5 []
                  (_update_file_content repo cmd (of_path f) (of_content f)
                     prev_commit) in
      pycall _create_or_update_branch_sig 3 []
        (_create_or_update_branch cmd (sha c));;
      write_output_files repo cmd fs' (Some c)
  end.

(** Lines 95 to 116 of [_make_freeform_changes]: the answer of the
    language model to the command. *)
Definition freeform_response (repo : Repository) (cmd : EditCommand)
  : M string :=
  (* repo_owner, repo_name = repo.full_name.split('/') *)
  let* parts :=
    match split "/" (full_name repo) with
    | [a; b] => ret (a, b)
    | _ => raise ValueError
    end in
  let repo_owner := fst parts in
  let repo_name := snd parts in
  let* repo_opts := pycall RepoOptions_sig 0 ["owner"; "repo"]
                      (ret (Loader.RepoOptions_defaults repo_owner repo_name)) in
  let* b := call (GetBranch (branch cmd))
              (fun h => get_branch h repo (branch cmd)) in
  (* repo_opts.branch = branch: the object, used through its string *)
  let repo_opts := if truthy b
                   then Loader.with_branch repo_opts (branch_str b)
                   else repo_opts in
  let model_opts := Loader.gpt4_options in
  let cache_opts := Loader.CacheOptions_defaults in
  let* index := pycall create_simple_vector_index_sig 3 []
                  (Loader.create_simple_vector_index repo_opts cache_opts
                     model_opts) in
  call (Query (_PROMPT_HELPER +:+ command cmd))
    (fun h => Loader.query h index (_PROMPT_HELPER +:+ command cmd)).

Definition _make_freeform_changes (repo : Repository) (cmd : EditCommand)
  : M unit :=
  let* resp := freeform_response repo cmd in
  let* output_files := lift (split_response resp) in
  write_output_files repo cmd output_files None.

Definition _make_changes (repo : Repository) (cmd : EditCommand) : M unit :=
  if truthy (targets cmd)
  then pycall _make_targeted_changes_sig 0 [] _make_targeted_changes
  else pycall _make_freeform_changes_sig 2 []
         (_make_freeform_changes repo cmd).

(** [handle_issues_opened], lines 142 to 155.  Line 150 passes a
    positional argument after a [**] unpacking,
    [EditCommand( **cmd_opts, t)], which the parser refuses: github.py
    does not compile, no statement of the handler ever runs, and what
    an issue event gets is the compiler's [SyntaxError]. *)
Definition handle_issues_opened {P} (repo : Repository) (event : Event P)
  : M unit :=
  raise SyntaxError.

(** Lines 166 to 179 of [handle_pr_comment], after its two guards,
    on what the subscripts of the event would have given.
    [REPLY_TEMPLATE.format(...)] has no replacement field and returns
    the template. *)
Definition pr_comment_changes (repo : Repository)
  (event : ReviewCommentPayload) : M unit :=
  let REPLY_TEMPLATE := "Addressed in %s" in
  let branch := pull_request_head_ref event in
  let* start := lift (int_of_json (if truthy (start_line event)
                                   then start_line event else line event)) in
  let* stop := lift (int_of_json (line event)) in
  let target := {| path := comment_path event;
                   commit := comment_commit_id event;
                   block := (start, stop) |} in
  let* cmd := pycall EditCommand_sig 0 ["repo"; "command"; "targets"; "branch"]
                (ret {| repo := repo; command := comment_body event;
                        branch := branch; targets := Some [target];
                        pr := None |}) in
  pycall _make_changes_sig 1 [] (_make_changes repo cmd);;
  let* p := call (GetPull (pull_request_number event))
              (fun h => get_pull h repo (pull_request_number event)) in
  call (CreateReviewCommentReply (commit target) REPLY_TEMPLATE)
    (fun h => create_review_comment_reply h p (commit target) REPLY_TEMPLATE).

(** Line 160, [comment = event["comment"]], is the first subscript of
    the event; the guards and what follows read the event the same
    way. *)
Definition handle_pr_comment (repo : Repository)
  (event : Event ReviewCommentPayload) : M unit :=
  let* body := lift (getitem event "comment") in
  (* don't respond to other people's PRs or the bot's own comments *)
  assert_ (pull_request_user_id body =? GH_BOT_UID)%Z;;
  assert_ (negb (comment_user_id body =? GH_BOT_UID)%Z);;
  pr_comment_changes repo body.

End Handlers.
End Github.

(** ** Lines that begin with a blob permalink *)

Module Permalink.
Import PyStr Eff.

(** A non-empty string all of whose characters are in [cls]. *)
Definition run_of (cls : ascii -> bool) (s : string) : bool :=
  truthy s && all_chars cls s.

(** A permalink to [path] at [commit], naming the line [start] and,
    when [stop] is given, the line [stop], followed by [rest]. *)
Definition permalink_line (owner repo commit path start : string)
  (stop : option string) (rest : string) : string :=
  "https://github.com/" +:+ owner +:+ "/" +:+ repo +:+ "/blob/" +:+ commit
  +:+ "/" +:+ path +:+ "#L" +:+ start +:+
  match stop with
  | Some e => "-L" +:+ e +:+ rest
  | None => rest
  end.

(** [rest] goes on with [-L] and a digit, that is, with an end line. *)
Definition names_end (rest : string) : bool :=
  match strip_prefix "-L" rest with
  | Some (String c _) => is_digit c
  | _ => false
  end.

End Permalink.

(** ** A concrete outside world, for evaluating the embedding *)

Module Sample.
Import Eff.

(** Timestamps in whole seconds. *)
Definition seconds : TimeOps :=
  {| time := Z; time_sub := Z.sub; time_lt_int := Z.ltb |}.

Definition head_commit : GitCommit :=
  {| sha := "c0"; tree := {| tree_sha := "t0" |} |}.

(** A repository in which every call succeeds; commits are numbered by
    the length of the history. *)
Definition github : Github.GithubApi :=
  {| Github.get_branch := fun _ _ b =>
       Ok {| branch_name := b; branch_commit := head_commit |};
     Github.create_git_tree := fun h _ _ _ _ _ _ =>
       Ok {| tree_sha := "t" +:+ Github.str_of_int (Z.of_nat (length h)) |};
     Github.create_git_commit := fun h _ _ t _ =>
       Ok {| sha := "c" +:+ Github.str_of_int (Z.of_nat (length h));
             tree := t |};
     Github.get_git_ref := fun _ _ r => Ok {| ref := r |};
     Github.ref_edit := fun _ _ _ => Ok tt;
     Github.create_git_ref := fun _ _ r _ => Ok {| ref := r |};
     Github.create_pull := fun _ _ _ _ _ _ => Ok {| number := 1 |};
     Github.get_pull := fun _ _ n => Ok {| number := n |};
     Github.create_review_comment_reply := fun _ _ _ _ => Ok tt;
     Github.branch_str := fun b => branch_name b |}.

(** An index library whose index is a string and whose language model
    answers every prompt with [answer]. *)
Definition index_lib (answer : string) : Loader.IndexLib :=
  {| Loader.Index := string;
     Loader.Documents := list string;
     Loader.ModelOptions := unit;
     Loader.ServiceContext := unit;
     Loader.gpt4_options := tt;
     Loader.service_context := fun _ => tt;
     Loader.load_from_string := fun s =>
       match s with
       | "" => Raise (LibraryError "JSONDecodeError")
       | _ => Ok s
       end;
     Loader.from_documents := fun _ _ _ => Ok "built";
     Loader.index_to_json := fun i => i;
     Loader.pickle_loads := fun s => Ok [s];
     Loader.pickle_dumps := fun d => String.concat "" d;
     Loader.load_data := fun _ _ _ _ => Ok ["doc"];
     Loader.query := fun _ _ _ => Ok answer;
     Loader.expanduser := fun p => p;
     Loader.joinpath := fun d n => d +:+ "/" +:+ n;
     Loader.encode := fun s => s |}.

Definition repository : Repository :=
  {| full_name := "octo/demo"; default_branch := "main" |}.

Definition empty_world : @world seconds :=
  @Build_world seconds ∅ 100%Z [].

Definition repo_opts : Loader.RepoOptions :=
  Loader.RepoOptions_defaults "octo" "demo".

Definition index_path : string :=
  Loader._get_cache_path (H0 := index_lib "") repo_opts
    Loader.CacheOptions_defaults (Some "sv.idx.json").

(** A world whose index cache file exists and holds [bytes], written
    at time [mtime]. *)
Definition cached_world (mtime : Z) (bytes : string) : @world seconds :=
  @Build_world seconds
    {[ index_path := @Build_file seconds mtime bytes ]} 100%Z [].

End Sample.

(** ** The rest of alchemy/loader.py: the other two index builders *)

Module LoaderRest.
Import PyStr Eff Loader.
Local Open Scope py_scope.

(** The list index and the knowledge-graph index of the library. *)
Class OtherIndexes `{IndexLib} := {
  ListIndex : Type;
  GraphIndex : Type;
  (* ModelOptions() *)
  default_model_options : ModelOptions;
  (* GPTListIndex.from_documents(docs, service_context=...) *)
  list_from_documents : list event -> Documents -> ServiceContext
                        -> result ListIndex;
  list_to_json : ListIndex -> string;
  (* GPTKnowledgeGraphIndex.from_documents(docs, service_context=...) *)
  graph_from_documents : list event -> Documents -> ServiceContext
                         -> result GraphIndex;
  graph_to_json : GraphIndex -> string;
}.

Section Builders.
Context `{TimeOps} `{OtherIndexes}.

(** The test is [if 0 == 1:]; its branch reads a name that was never
    bound. *)
Definition create_list_index (repo_opts : RepoOptions)
  (cache_opts : CacheOptions) (model_opts : ModelOptions) : M ListIndex :=
  let EXT := "l.idx.json" in
  let context := service_context model_opts in
  if (0 =? 1)%Z
  then raise (LibraryError "NameError: cache")
  else
    let* docs := _load_documents repo_opts cache_opts in
    let* index := call FromDocuments
                    (fun h => list_from_documents h docs context) in
    _put_cache (Text (list_to_json index)) EXT repo_opts cache_opts;;
    ret index.

(** [cache_opts or CacheOptions()] and [model_opts or ModelOptions()]:
    an instance of a dataclass is true, so the default replaces [None]
    only. *)
Definition create_knowledge_graph_index (repo_opts : RepoOptions)
  (cache_opts : option CacheOptions) (model_opts : option ModelOptions)
  : M GraphIndex :=
  let cache_opts := default CacheOptions_defaults cache_opts in
  let model_opts := default default_model_options model_opts in
  let EXT := "kg.idx.json" in
  let context := service_context model_opts in
  if (0 =? 1)%Z
  then raise (LibraryError "NameError: cache")
  else
    let* docs := _load_documents repo_opts cache_opts in
    let* index := call FromDocuments
                    (fun h => graph_from_documents h docs context) in
    _put_cache (Text (graph_to_json index)) EXT repo_opts cache_opts;;
    ret index.

End Builders.
End LoaderRest.

(** ** What the modules read from the environment when they load *)

Module Environ.
Import Eff.

(** How the top of a module ends: it goes on, a variable is missing
    ([os.environ[key]] raises [KeyError]), a number does not parse, or
    an [assert] fails. *)
Inductive outcome (A : Type) :=
| Loaded (a : A)
| KeyError (key : string)
| NotAnInt (text : string)       (* [int] raised [ValueError] *)
| AssertFailed.
Arguments Loaded {A} a.
Arguments KeyError {A} key.
Arguments NotAnInt {A} text.
Arguments AssertFailed {A}.

(** Lines 16 to 19 of github.py. *)
Record GithubConfig := {
  GH_BOT_UID : Z;
  GH_APP_ID : Z;
  GH_APP_KEY : string;
  GH_USER_AGENT : string;
}.

Section GithubModule.
(** [int(s)] on a string of the environment; [None] when it raises. *)
Variable int_of_str : string -> option Z.

(** [assert (NAME := int(os.environ[key]))] *)
Definition required_int (environ : gmap string string) (key : string)
  : outcome Z :=
  match environ !! key with
  | None => KeyError key
  | Some text =>
      match int_of_str text with
      | None => NotAnInt text
      | Some n => if truthy n then Loaded n else AssertFailed
      end
  end.

(** [assert (NAME := os.environ[key])] *)
Definition required_str (environ : gmap string string) (key : string)
  : outcome string :=
  match environ !! key with
  | None => KeyError key
  | Some text => if truthy text then Loaded text else AssertFailed
  end.

Definition and_then {A B} (o : outcome A) (k : A -> outcome B) : outcome B :=
  match o with
  | Loaded a => k a
  | KeyError key => KeyError key
  | NotAnInt text => NotAnInt text
  | AssertFailed => AssertFailed
  end.

Definition github_requires (environ : gmap string string)
  : outcome GithubConfig :=
  and_then (required_int environ "GH_BOT_UID") (fun uid =>
  and_then (required_int environ "GH_APP_ID") (fun app =>
  and_then (required_str environ "GH_APP_KEY") (fun key =>
  and_then (required_str environ "GH_USER_AGENT") (fun agent =>
  Loaded {| GH_BOT_UID := uid; GH_APP_ID := app; GH_APP_KEY := key;
            GH_USER_AGENT := agent |})))).

End GithubModule.

(** api.py, lines 7 and 8:
    [if not os.environ["FLASK_ENV"]: os.environ["FLASK_ENV"] = "development"]. *)
Definition default_flask_env (environ : gmap string string)
  : outcome (gmap string string) :=
  match environ !! "FLASK_ENV" with
  | None => KeyError "FLASK_ENV"
  | Some v =>
      if negb (truthy v)
      then Loaded (<["FLASK_ENV" := "development"]> environ)
      else Loaded environ
  end.

End Environ.

(** ** More shapes of text *)

Module Shapes.
Import PyStr.

(** [Permalink.permalink_line] with any character [dot] where the host
    name has its dot. *)
Definition hosted_line (dot : ascii) (owner repo commit path start : string)
  (stop : option string) (rest : string) : string :=
  "https://github" +:+ String dot
    ("com/" +:+ owner +:+ "/" +:+ repo +:+ "/blob/" +:+ commit
     +:+ "/" +:+ path +:+ "#L" +:+ start +:+
     match stop with
     | Some e => "-L" +:+ e +:+ rest
     | None => rest
     end).

(** How often [c] occurs in [s]. *)
Fixpoint count_char (c : ascii) (s : string) : nat :=
  match s with
  | "" => 0
  | String a s' => (if Ascii.eqb a c then 1 else 0) + count_char c s'
  end.

End Shapes.

(** The sample world for the other index builders. *)
Module SampleRest.
Import Eff.

Definition other_indexes (answer : string)
  : @LoaderRest.OtherIndexes (Sample.index_lib answer) :=
  {| LoaderRest.ListIndex := string;
     LoaderRest.GraphIndex := string;
     LoaderRest.default_model_options :=
       (tt : @Loader.ModelOptions (Sample.index_lib answer));
     LoaderRest.list_from_documents := fun _ _ _ => Ok "list";
     LoaderRest.list_to_json := fun i => i;
     LoaderRest.graph_from_documents := fun _ _ _ => Ok "graph";
     LoaderRest.graph_to_json := fun i => i |}.

(** An index library whose pickles and serialisations are never
    empty, as those of the real libraries. *)
Definition framed_lib : Loader.IndexLib :=
  {| Loader.Index := string;
     Loader.Documents := list string;
     Loader.ModelOptions := unit;
     Loader.ServiceContext := unit;
     Loader.gpt4_options := tt;
     Loader.service_context := fun _ => tt;
     Loader.load_from_string := fun s =>
       match s with
       | "" => Raise (LibraryError "JSONDecodeError")
       | _ => Ok s
       end;
     Loader.from_documents := fun _ _ _ => Ok "built";
     Loader.index_to_json := fun i => "{" +:+ i +:+ "}";
     Loader.pickle_loads := fun s => Ok [s];
     Loader.pickle_dumps := fun d => "P" +:+ String.concat "" d;
     Loader.load_data := fun _ _ _ _ => Ok ["doc"];
     Loader.query := fun _ _ _ => Ok "";
     Loader.expanduser := fun p => p;
     Loader.joinpath := fun d n => d +:+ "/" +:+ n;
     Loader.encode := fun s => s |}.

(** [int] on the strings of decimal digits, refusing the rest. *)
Definition int_of_digits (s : string) : option Z :=
  if Permalink.run_of PyStr.is_digit s then Some (PyStr.int s) else None.

Definition environ : gmap string string :=
  list_to_map [ ("GH_BOT_UID", "42"); ("GH_APP_ID", "7");
                ("GH_APP_KEY", "secret"); ("GH_USER_AGENT", "alchemy");
                ("FLASK_ENV", "") ].

End SampleRest.

(** * Properties *)

(** ** The matcher on strings built by concatenation *)

Section MatcherLemmas.
Import PyStr Re.

Lemma strip_prefix_app (p s : string) : strip_prefix p (p +:+ s) = Some s.
Proof.
  induction p as [|a p IH]; simpl; [reflexivity|].
  rewrite Ascii.eqb_refl. exact IH.
Qed.

Lemma string_length_app (a b : string) :
  String.length (a +:+ b) = String.length a + String.length b.
Proof. induction a as [|c a IH]; simpl; [reflexivity|]. now rewrite IH. Qed.

Lemma substring_prefix (a b : string) :
  substring 0 (String.length a) (a +:+ b) = a.
Proof.
  induction a as [|c a IH]; simpl.
  - destruct b; reflexivity.
  - now rewrite IH.
Qed.

Lemma consumed_app (w rest : string) : consumed (w +:+ rest) rest = w.
Proof.
  unfold consumed. rewrite string_length_app.
  replace (String.length w + String.length rest - String.length rest)
    with (String.length w) by lia.
  apply substring_prefix.
Qed.

(** A greedy run stops where the class stops, provided the rest of
    the pattern then succeeds. *)
Lemma star_k_run {R} cls (w rest : string) (k : string -> option R) r :
  all_chars cls w = true -> stops cls rest = true ->
  k rest = Some r -> star_k cls (w +:+ rest) k = Some r.
Proof.
  intros Hw Hrest Hk. induction w as [|c w IH]; simpl in *.
  - destruct rest as [|c rest]; simpl in *; [exact Hk|].
    destruct (cls c); [discriminate|exact Hk].
  - apply andb_prop in Hw as [Hc Hw]. rewrite Hc, (IH Hw). reflexivity.
Qed.

Lemma plus_k_run {R} cls (w rest : string) (k : string -> option R) r :
  w <> "" -> all_chars cls w = true -> stops cls rest = true ->
  k rest = Some r -> plus_k cls (w +:+ rest) k = Some r.
Proof.
  intros Hne Hw Hrest Hk. destruct w as [|c w]; [congruence|].
  simpl in *. apply andb_prop in Hw as [Hc Hw]. rewrite Hc.
  now apply star_k_run.
Qed.

End MatcherLemmas.

(** ** The target extractor *)

Section Targets.
Import PyStr Re Eff Github Permalink.

Lemma run_of_inv cls s :
  run_of cls s = true -> s <> "" /\ all_chars cls s = true.
Proof.
  unfold run_of. intros [Hs Ha]%andb_prop. split; [|exact Ha].
  destruct s; [discriminate|congruence].
Qed.

(** What the pattern captures on a permalink with an end line. *)
Lemma match_with_end owner repo commit path start e rest :
  run_of not_slash owner = true -> run_of not_slash repo = true ->
  run_of not_slash commit = true -> run_of not_hash path = true ->
  run_of is_digit start = true -> run_of is_digit e = true ->
  stops is_digit rest = true ->
  re_match _target_regex
    (permalink_line owner repo commit path start (Some e) rest)
  = Some [("end", e); ("start", start); ("path_str", path);
          ("commit", commit)].
Proof.
  intros [? ?]%run_of_inv [? ?]%run_of_inv [? ?]%run_of_inv
         [? ?]%run_of_inv [? ?]%run_of_inv [? ?]%run_of_inv Hrest.
  unfold re_match, permalink_line.
  change ("https://github.com/" +:+ ?x)
    with ("https://github" +:+ String "." ("com/" +:+ x)).
  cbv [_target_regex seq]. cbn [rmatch].
  rewrite strip_prefix_app. change (Ascii.eqb "." LF) with false. cbv iota.
  rewrite strip_prefix_app.
  apply plus_k_run; [assumption..|reflexivity|]. rewrite strip_prefix_app.
  apply plus_k_run; [assumption..|reflexivity|]. rewrite strip_prefix_app.
  apply plus_k_run; [assumption..|reflexivity|]. rewrite strip_prefix_app.
  apply plus_k_run; [assumption..|reflexivity|]. rewrite strip_prefix_app.
  apply plus_k_run; [assumption..|reflexivity|]. rewrite strip_prefix_app.
  erewrite plus_k_run; [|assumption..|reflexivity].
  now rewrite !consumed_app.
Qed.

(** What the pattern captures on a permalink without an end line. *)
Lemma match_without_end owner repo commit path start rest :
  run_of not_slash owner = true -> run_of not_slash repo = true ->
  run_of not_slash commit = true -> run_of not_hash path = true ->
  run_of is_digit start = true ->
  stops is_digit rest = true -> names_end rest = false ->
  re_match _target_regex
    (permalink_line owner repo commit path start None rest)
  = Some [("start", start); ("path_str", path); ("commit", commit)].
Proof.
  intros [? ?]%run_of_inv [? ?]%run_of_inv [? ?]%run_of_inv
         [? ?]%run_of_inv [? ?]%run_of_inv Hrest Hno.
  unfold re_match, permalink_line.
  change ("https://github.com/" +:+ ?x)
    with ("https://github" +:+ String "." ("com/" +:+ x)).
  cbv [_target_regex seq]. cbn [rmatch].
  rewrite strip_prefix_app. change (Ascii.eqb "." LF) with false. cbv iota.
  rewrite strip_prefix_app.
  apply plus_k_run; [assumption..|reflexivity|]. rewrite strip_prefix_app.
  apply plus_k_run; [assumption..|reflexivity|]. rewrite strip_prefix_app.
  apply plus_k_run; [assumption..|reflexivity|]. rewrite strip_prefix_app.
  apply plus_k_run; [assumption..|reflexivity|]. rewrite strip_prefix_app.
  apply plus_k_run; [assumption..|].
  rewrite !consumed_app. unfold names_end in Hno.
  destruct (strip_prefix "-L" rest) as [[|c s']|]; try reflexivity.
  cbn [plus_k]. now rewrite Hno.
Qed.

Lemma target_in_body haystack line t :
  line ∈ splitlines haystack -> target_of_line line = Some t ->
  t ∈ _get_targets_from_body haystack.
Proof.
  intros Hin Ht. unfold _get_targets_from_body.
  apply list_elem_of_omap. exists line. split; assumption.
Qed.

(** C10. A line that begins with a blob permalink yields a target
    whose line range is (start, end) when the permalink names a start
    and an end line, and (start, start + 1) when it names a start line
    only; the first component is the start line in both cases.  The
    target is among those extracted from any body that has this line. *)
Theorem permalink_line_range owner repo commit path start rest :
  run_of not_slash owner = true -> run_of not_slash repo = true ->
  run_of not_slash commit = true -> run_of not_hash path = true ->
  run_of is_digit start = true -> stops is_digit rest = true ->
  (forall e, run_of is_digit e = true ->
     let line := permalink_line owner repo commit path start (Some e) rest in
     let t := {| path := path; commit := commit;
                 block := (int start, int e) |} in
     target_of_line line = Some t /\
     forall haystack, line ∈ splitlines haystack ->
                      t ∈ _get_targets_from_body haystack)
  /\
  (names_end rest = false ->
     let line := permalink_line owner repo commit path start None rest in
     let t := {| path := path; commit := commit;
                 block := (int start, (int start + 1)%Z) |} in
     target_of_line line = Some t /\
     forall haystack, line ∈ splitlines haystack ->
                      t ∈ _get_targets_from_body haystack).
Proof.
  intros Ho Hr Hc Hp Hs Hrest. split.
  - intros e He line t.
    assert (Ht : target_of_line line = Some t).
    { unfold target_of_line, line.
      rewrite (match_with_end _ _ _ _ _ _ _ Ho Hr Hc Hp Hs He Hrest).
      cbn [group String.eqb Ascii.eqb Bool.eqb default].
      apply run_of_inv in He as [He _].
      destruct e; [congruence|reflexivity]. }
    split; [exact Ht|]. intros haystack Hin. eapply target_in_body; eauto.
  - intros Hno line t.
    assert (Ht : target_of_line line = Some t).
    { unfold target_of_line, line.
      rewrite (match_without_end _ _ _ _ _ _ Ho Hr Hc Hp Hs Hrest Hno).
      reflexivity. }
    split; [exact Ht|]. intros haystack Hin. eapply target_in_body; eauto.
Qed.

Lemma permalink_line_range_witness :
  {| path := "src/f.py"; commit := "abc123"; block := (28%Z, 45%Z) |}
    ∈ _get_targets_from_body
        ("Please tidy this:" +:+ nl +:+
         "https://github.com/octo/demo/blob/abc123/src/f.py#L28-L45 thanks")
  /\
  target_of_line "https://github.com/octo/demo/blob/abc123/src/f.py#L53"
  = Some {| path := "src/f.py"; commit := "abc123"; block := (53%Z, 54%Z) |}.
Proof.
  split.
  - refine (proj2 (proj1 (permalink_line_range "octo" "demo" "abc123"
                            "src/f.py" "28" " thanks" eq_refl eq_refl eq_refl
                            eq_refl eq_refl eq_refl) "45" eq_refl) _ _).
    vm_compute. apply list_elem_of_In. right. left. reflexivity.
  - exact (proj1 (proj2 (permalink_line_range "octo" "demo" "abc123"
                           "src/f.py" "53" "" eq_refl eq_refl eq_refl
                           eq_refl eq_refl eq_refl) eq_refl)).
Defined.

Lemma strip_prefix_none p s :
  startswith p s = false -> strip_prefix p s = None.
Proof.
  revert s. induction p as [|a p IH]; intros [|b s]; simpl;
    try discriminate; try reflexivity.
  destruct (Ascii.eqb a b); [apply IH|reflexivity].
Qed.

(** No target comes from a line that does not itself begin with the
    start of a permalink, whatever the line holds further on. *)
Lemma target_needs_line_start line :
  startswith "https://github" line = false -> target_of_line line = None.
Proof.
  intros Hs. unfold target_of_line, re_match.
  cbv [_target_regex seq]. cbn [rmatch].
  now rewrite (strip_prefix_none _ _ Hs).
Qed.

(** C1. A permalink that follows other text on its line yields no
    target, and of two permalinks on one line only the first does: the
    pattern is tried at the start of each line only.  The same
    permalink on a line of its own is found. *)
Theorem permalink_after_text_is_missed :
  _get_targets_from_body
    "see https://github.com/octo/demo/blob/abc123/src/f.py#L3-L5" = []
  /\
  _get_targets_from_body
    "https://github.com/octo/demo/blob/abc123/src/f.py#L3-L5"
  = [{| path := "src/f.py"; commit := "abc123"; block := (3%Z, 5%Z) |}]
  /\
  _get_targets_from_body
    ("https://github.com/octo/demo/blob/abc123/src/f.py#L3-L5 and " +:+
     "https://github.com/octo/demo/blob/abc123/src/g.py#L7")
  = [{| path := "src/f.py"; commit := "abc123"; block := (3%Z, 5%Z) |}].
Proof. repeat split; vm_compute; reflexivity. Qed.

End Targets.

(** ** The cache layer *)

Section CacheProps.
Import Eff Loader.
Context `{TimeOps} `{IndexLib}.

(** The test [_cache_is_usable] makes on a file that exists. *)
Lemma cache_is_usable_eval p opts w f :
  fs w !! p = Some f ->
  _cache_is_usable p opts w
  = (Ok (time_lt_int (time_sub (clock w) (st_mtime f)) (max_age opts)
         || negb (force_update opts)), w).
Proof.
  intros Hf. unfold _cache_is_usable, bind, time_time, stat, ret.
  now rewrite Hf.
Qed.

(** [_get_cache] leaves the world as it is, and returns the bytes of
    the file exactly when the file exists and passes the test. *)
Lemma get_cache_eval ext repo_opts cache_opts w :
  _get_cache ext repo_opts cache_opts w
  = (match fs w !! _get_cache_path repo_opts cache_opts (Some ext) with
     | Some f =>
         if time_lt_int (time_sub (clock w) (st_mtime f)) (max_age cache_opts)
            || negb (force_update cache_opts)
         then Ok (Some (content f)) else Ok None
     | None => Ok None
     end, w).
Proof.
  unfold _get_cache, bind, exists_, read_bytes.
  destruct (fs w !! _get_cache_path repo_opts cache_opts (Some ext))
    as [f|] eqn:Hf.
  - rewrite bool_decide_eq_true_2 by eauto.
    rewrite (cache_is_usable_eval _ _ _ _ Hf).
    destruct (_ || _); [|reflexivity]. now rewrite Hf.
  - rewrite bool_decide_eq_false_2; [reflexivity|].
    intros [? ?]; congruence.
Qed.

(** C6. The cache name is owner, repository and one more part: the
    commit SHA when [commit_sha] is set (holds a non-empty string, which
    is what the source tests), the branch otherwise.  With [commit_sha]
    set, changing the branch changes neither the name nor the path of
    the cache file. *)
Theorem cache_name_by_sha_or_branch (r : RepoOptions) :
  (forall s, commit_sha r = Some s -> s <> "" ->
     _get_cache_name r = (owner r +:+ "-" +:+ repo r) +:+ "-" +:+ s)
  /\ (commit_sha r = None \/ commit_sha r = Some "" ->
      _get_cache_name r = (owner r +:+ "-" +:+ repo r) +:+ "-" +:+ branch r)
  /\ (forall s b, commit_sha r = Some s -> s <> "" ->
        _get_cache_name (with_branch r b) = _get_cache_name r
        /\ forall c ext, _get_cache_path (with_branch r b) c ext
                         = _get_cache_path r c ext).
Proof.
  unfold _get_cache_path, _get_cache_name. split; [|split].
  - intros s -> Hs. destruct s; [congruence|reflexivity].
  - intros [-> | ->]; reflexivity.
  - intros s b Hsha Hs. simpl. rewrite Hsha.
    destruct s; [congruence|]. split; reflexivity.
Qed.

(** C5, as the code has it. When the index cache file exists, is
    usable and is not empty, the index is loaded from its bytes and
    nothing else happens: no outside call, no file written.  Otherwise
    (no file, a file that is not usable, or an empty file) the index
    is built from the loaded documents and its serialisation is in the
    cache file when the function returns. *)
Theorem index_loaded_or_rebuilt repo_opts cache_opts model_opts w :
  let p := _get_cache_path repo_opts cache_opts (Some "sv.idx.json") in
  (forall f,
     fs w !! p = Some f ->
     _cache_is_usable p cache_opts w = (Ok true, w) ->
     content f <> "" ->
     create_simple_vector_index repo_opts cache_opts model_opts w
     = (load_from_string (content f), w))
  /\
  (fs w !! p = None
   \/ _cache_is_usable p cache_opts w = (Ok false, w)
   \/ (exists f, fs w !! p = Some f /\ content f = "") ->
   forall docs w1 index,
     _load_documents repo_opts cache_opts w = (Ok docs, w1) ->
     from_documents (trace w1) docs (service_context model_opts) = Ok index ->
     create_simple_vector_index repo_opts cache_opts model_opts w
     = (Ok index,
        {| fs := <[p := {| st_mtime := clock w1;
                           content := encode (index_to_json index) |}]> (fs w1);
           clock := clock w1;
           trace := trace w1 ++ [FromDocuments] |})).
Proof.
  intros p. split.
  - intros f Hf Hu Hne.
    unfold create_simple_vector_index, bind.
    rewrite get_cache_eval. fold p. rewrite Hf.
    rewrite (cache_is_usable_eval _ _ _ _ Hf) in Hu.
    injection Hu as ->.
    destruct (content f) eqn:Hc; [congruence|]. reflexivity.
  - intros Hmiss docs w1 index Hdocs Hbuild.
    assert (Hcache : exists c, _get_cache "sv.idx.json" repo_opts cache_opts w
                               = (Ok c, w) /\ truthy c = false).
    { rewrite get_cache_eval. fold p.
      destruct Hmiss as [-> | [Hu | (f & Hf & Hc)]].
      - exists None. split; reflexivity.
      - destruct (fs w !! p) as [f|] eqn:Hf.
        + rewrite (cache_is_usable_eval _ _ _ _ Hf) in Hu.
          injection Hu as ->. exists None. split; reflexivity.
        + exists None. split; reflexivity.
      - rewrite Hf. destruct (_ || _).
        + exists (Some (content f)). split; [reflexivity|].
          now rewrite Hc.
        + exists None. split; reflexivity. }
    destruct Hcache as (c & Hget & Hfalsy).
    unfold create_simple_vector_index, bind.
    rewrite Hget, Hfalsy, Hdocs. unfold call at 1. cbn [trace].
    rewrite Hbuild. reflexivity.
Qed.

End CacheProps.

(** The cache layer on the sample world: the clock reads 100, the
    options are the defaults ([max_age] 60, [force_update] off). *)
Section CacheExamples.
Import Eff Loader Sample.

Local Abbreviation lib := (index_lib "").
Local Abbreviation usable := (@_cache_is_usable seconds).
Local Abbreviation create := (@create_simple_vector_index seconds lib).
Local Abbreviation file_at t b := (@Build_file seconds t%Z b).

(** C4. The test reads [fresh or not force_update] where the options
    call for [fresh and not force_update].  Under the default options
    a file of age 100, with [max_age] 60, is found usable and
    [_get_cache] returns its bytes: the age is never looked at.  With
    [force_update] on, a file of age 1 is found usable just the same:
    nothing is forced. *)
Theorem stale_cache_is_used_by_default :
  let w := cached_world 0 "{}" in
  fs w !! index_path = Some (file_at 0 "{}")
  /\ time_lt_int (time_sub (clock w) 0%Z) (max_age CacheOptions_defaults)
     = false
  /\ usable index_path CacheOptions_defaults w = (Ok true, w)
  /\ @_get_cache seconds lib "sv.idx.json" repo_opts CacheOptions_defaults w
     = (Ok (Some "{}"), w)
  /\ usable index_path
       {| path := "~/.alchemy"; force_update := true; max_age := 60 |}
       (cached_world 99 "{}")
     = (Ok true, cached_world 99 "{}").
Proof. repeat split; vm_compute; reflexivity. Qed.

Lemma index_loaded_or_rebuilt_witness :
  create repo_opts CacheOptions_defaults tt (cached_world 0 "{}")
  = (Ok "{}", cached_world 0 "{}")
  /\ create repo_opts CacheOptions_defaults tt empty_world
     = (Ok "built",
        @Build_world seconds
          (<[index_path := file_at 100 "built"]>
             {[ "~/.alchemy/octo-demo-main.docs.pkl"
                := file_at 100 "doc" ]})
          100%Z [LoadData None "main"; FromDocuments]).
Proof.
  split.
  - apply (proj1 (index_loaded_or_rebuilt (H := seconds) (H0 := lib)
                    repo_opts CacheOptions_defaults tt (cached_world 0 "{}"))
             (file_at 0 "{}")).
    + reflexivity.
    + vm_compute. reflexivity.
    + discriminate.
  - refine (eq_trans
              (proj2 (index_loaded_or_rebuilt (H := seconds) (H0 := lib)
                        repo_opts CacheOptions_defaults tt empty_world)
                 (or_introl eq_refl) ["doc"]
                 (@Build_world seconds
                    {[ "~/.alchemy/octo-demo-main.docs.pkl"
                       := file_at 100 "doc" ]}
                    100%Z [LoadData None "main"])
                 "built" _ _) _).
    + vm_compute. reflexivity.
    + reflexivity.
    + vm_compute. reflexivity.
Defined.

(** C5 as stated fails: the cache file exists and is usable, but it is
    empty, and the index is rebuilt from the documents instead of
    being loaded from it. *)
Lemma empty_cache_file_is_rebuilt :
  let w := cached_world 0 "" in
  let out := create repo_opts CacheOptions_defaults tt w in
  fs w !! index_path = Some (file_at 0 "")
  /\ usable index_path CacheOptions_defaults w = (Ok true, w)
  /\ fst out = Ok "built"
  /\ trace (snd out) = [LoadData None "main"; FromDocuments]
  /\ out <> (Loader.load_from_string "", w).
Proof.
  repeat split; try (vm_compute; reflexivity).
  vm_compute. discriminate.
Qed.

Lemma cache_name_by_sha_or_branch_witness :
  let pinned :=
    {| owner := "octo"; repo := "demo"; branch := "main";
       commit_sha := Some "abc123";
       filter_directories := None; filter_file_extensions := None;
       verbose := true; concurrent_requests := 10 |} in
  _get_cache_name pinned = "octo-demo-abc123"
  /\ _get_cache_name repo_opts = "octo-demo-main"
  /\ @_get_cache_path lib (with_branch pinned "dev") CacheOptions_defaults
       (Some "sv.idx.json")
     = @_get_cache_path lib pinned CacheOptions_defaults (Some "sv.idx.json").
Proof.
  intros pinned. split; [|split].
  - apply (proj1 (cache_name_by_sha_or_branch (H0 := lib) pinned) "abc123");
      [reflexivity|discriminate].
  - apply (proj1 (proj2 (cache_name_by_sha_or_branch (H0 := lib) repo_opts))).
    left. reflexivity.
  - apply (proj2 (proj2 (cache_name_by_sha_or_branch (H0 := lib) pinned))
             "abc123" "dev"); [reflexivity|discriminate].
Defined.

End CacheExamples.

(** ** What a computation adds to the trace *)

Section TraceLemmas.
Import Eff.
Context `{TimeOps}.
Variable P : event -> bool.

Lemma appends_ret {A} (a : A) : appends P (ret a).
Proof. intros w. exists []. now rewrite app_nil_r. Qed.

Lemma appends_raise {A} e : appends P (raise (A := A) e).
Proof. intros w. exists []. now rewrite app_nil_r. Qed.

Lemma appends_lift {A} (r : result A) : appends P (lift r).
Proof. intros w. exists []. now rewrite app_nil_r. Qed.

Lemma appends_assert c : appends P (assert_ c).
Proof. destruct c; [apply appends_ret|apply appends_raise]. Qed.

Lemma appends_call {A} e (answer : list event -> result A) :
  P e = true -> appends P (call e answer).
Proof. intros He w. exists [e]. simpl. now rewrite He. Qed.

Lemma appends_bind {A B} (m : M A) (k : A -> M B) :
  appends P m -> (forall a, appends P (k a)) -> appends P (bind m k).
Proof.
  intros Hm Hk w. unfold bind. destruct (Hm w) as (es & Ht & Hes).
  destruct (m w) as [[a|e] w'] eqn:Hmw; simpl in Ht.
  - destruct (Hk a w') as (es' & Ht' & Hes').
    exists (es ++ es')%list. rewrite Ht', Ht, app_assoc. split; [reflexivity|].
    rewrite forallb_app, Hes, Hes'. reflexivity.
  - exists es. simpl. split; assumption.
Qed.

Lemma appends_pycall {A} sg npos kw (body : M A) :
  appends P body -> appends P (pycall sg npos kw body).
Proof.
  intros Hb. unfold pycall. destruct (binds sg npos kw);
    [exact Hb|apply appends_raise].
Qed.

(** A computation that does not touch the trace. *)
Lemma appends_silent {A} (m : M A) :
  (forall w, trace (snd (m w)) = trace w) -> appends P m.
Proof. intros Hm w. exists []. now rewrite app_nil_r. Qed.

End TraceLemmas.

(** One step of a proof that a computation only appends: through the
    monad's operations and through tests and matches. *)
Ltac appends_step :=
  first
    [ apply appends_ret | apply appends_raise | apply appends_lift
    | apply appends_assert | apply appends_pycall
    | apply appends_call; solve [reflexivity | auto]
    | apply appends_bind; [|intros ?]
    | match goal with
      | |- Eff.appends _ (if ?c then _ else _) => destruct c
      | |- Eff.appends _ (match ?x with _ => _ end) => destruct x
      end ].

Section LoaderTrace.
Import Eff Loader.
Context `{TimeOps} `{IndexLib}.
Variable P : event -> bool.
Hypothesis P_read_only : forall e, read_only e = true -> P e = true.

Lemma appends_get_cache ext r c : appends P (_get_cache ext r c).
Proof.
  apply appends_silent. intros w. now rewrite get_cache_eval.
Qed.

Lemma appends_put_cache d ext r c : appends P (_put_cache d ext r c).
Proof. apply appends_silent. reflexivity. Qed.

Lemma appends_load_documents r c : appends P (_load_documents r c).
Proof.
  unfold _load_documents.
  apply appends_bind; [apply appends_get_cache|]. intros cache.
  destruct (truthy cache); [apply appends_lift|].
  apply appends_bind; [apply appends_call; now apply P_read_only|].
  intros docs. apply appends_bind; [apply appends_put_cache|].
  intros _. apply appends_ret.
Qed.

Lemma appends_create_index r c m :
  appends P (create_simple_vector_index r c m).
Proof.
  unfold create_simple_vector_index.
  apply appends_bind; [apply appends_get_cache|]. intros cache.
  destruct (truthy cache); [apply appends_lift|].
  apply appends_bind; [apply appends_load_documents|]. intros docs.
  apply appends_bind; [apply appends_call; now apply P_read_only|].
  intros index. apply appends_bind; [apply appends_put_cache|].
  intros _. apply appends_ret.
Qed.

End LoaderTrace.

Section GithubTrace.
Import Eff Github.
Context `{TimeOps} `{Loader.IndexLib} `{GithubApi}.

(** Asking the language model makes read-only calls alone. *)
Lemma appends_freeform_response repo cmd :
  appends read_only (freeform_response repo cmd).
Proof.
  unfold freeform_response.
  repeat first [apply appends_create_index; auto | appends_step].
Qed.

Lemma appends_update_file_content repo cmd path content parent :
  appends (fun _ => true)
    (_update_file_content repo cmd path content parent).
Proof. unfold _update_file_content. cbv zeta. repeat appends_step. Qed.

Lemma appends_create_or_update_branch cmd commit_id :
  appends (fun _ => true) (_create_or_update_branch cmd commit_id).
Proof. unfold _create_or_update_branch. repeat appends_step. Qed.

Lemma appends_write_output_files repo cmd files prev :
  appends (fun _ => true) (write_output_files repo cmd files prev).
Proof.
  revert prev. induction files as [|f files IH]; intros prev; simpl.
  - apply appends_ret.
  - apply appends_bind;
      [apply appends_pycall, appends_update_file_content|intros c].
    apply appends_bind;
      [apply appends_pycall, appends_create_or_update_branch|intros _].
    apply IH.
Qed.

Lemma bind_assoc {A B C} (m : M A) (k1 : A -> M B) (k2 : B -> M C) w :
  bind (bind m k1) k2 w = bind m (fun a => bind (k1 a) k2) w.
Proof. unfold bind. destruct (m w) as [[a|e] w']; reflexivity. Qed.

(** The freeform edit either stops at the repository's name, before
    anything happens, or begins by asking GitHub for the branch. *)
Lemma freeform_changes_first_call repo cmd w :
  _make_freeform_changes repo cmd w = (Raise ValueError, w)
  \/ exists es,
       trace (snd (_make_freeform_changes repo cmd w))
       = (trace w ++ GetBranch (branch cmd) :: es)%list.
Proof.
  unfold _make_freeform_changes, freeform_response.
  destruct (PyStr.split "/" (full_name repo)) as [|a [|b [|c parts]]];
    try (left; reflexivity).
  right. rewrite bind_assoc.
  change (bind (ret (a, b)) ?k) with (k (a, b)). cbv beta.
  rewrite bind_assoc.
  change (pycall RepoOptions_sig 0 ["owner"; "repo"] ?body) with body.
  change (bind (ret ?x) ?k) with (k x). cbv beta.
  rewrite bind_assoc. unfold bind at 1, call at 1.
  destruct (get_branch (trace w) repo (branch cmd)) as [b0|e].
  - match goal with
    | |- context [bind ?m ?k ?w0] =>
        assert (Hrest : appends (fun _ => true) (bind m k))
    end.
    { repeat first
        [ apply appends_create_index; auto
        | apply appends_write_output_files
        | appends_step ]. }
    match type of Hrest with
    | appends _ ?rest =>
        match goal with
        | |- context [rest ?w0] => destruct (Hrest w0) as (es & Ht & _)
        end
    end.
    exists es. rewrite Ht. cbn [trace]. now rewrite <- app_assoc.
  - exists []. reflexivity.
Qed.

End GithubTrace.

(** ** The response splitter *)

Section Splitter.
Import PyStr Eff Github.

(** Whenever the splitter returns, every pair it returns has empty
    content: a line that is not a marker line raises. *)
Lemma split_lines_contents_empty lines acc files :
  Forall (fun f => of_content f = "") acc ->
  split_response_lines lines acc = Ok files ->
  Forall (fun f => of_content f = "") files.
Proof.
  revert acc. induction lines as [|line lines IH]; intros acc Hacc;
    cbn [split_response_lines].
  - intros [= <-]. exact Hacc.
  - destruct (startswith _RESP_PATH_PREFIX line).
    + destruct (split _RESP_PATH_PREFIX line) as [|a [|key [|? ?]]];
        try discriminate.
      apply IH. apply Forall_app. split; [exact Hacc|].
      constructor; [reflexivity|constructor].
    + destruct (last_item acc); discriminate.
Qed.

Lemma split_response_contents_empty resp files :
  split_response resp = Ok files ->
  Forall (fun f => of_content f = "") files.
Proof. apply split_lines_contents_empty. constructor. Qed.

(** C2. A content line after a marker line raises [AttributeError]
    (the pair is a named tuple, its content cannot be assigned), so no
    content is ever collected; marker lines alone give pairs with the
    stripped path and empty content; a marker line that holds the
    marker twice raises [ValueError]. *)
Theorem content_line_raises :
  split_response ("%%% src/app.py" +:+ nl +:+ "print(1)")
  = Raise AttributeError
  /\ split_response ("%%% src/app.py " +:+ nl +:+ "%%%lib/util.py")
     = Ok [ {| of_path := "src/app.py"; of_content := "" |};
            {| of_path := "lib/util.py"; of_content := "" |} ]
  /\ split_response "%%% a.py %%% b.py" = Raise ValueError.
Proof. repeat split; vm_compute; reflexivity. Qed.

End Splitter.

(** ** The edit orchestrator and the handlers *)

Section HandlerProps.
Import PyStr Eff Github.
Context `{TimeOps} `{Loader.IndexLib} `{GithubApi}.
Variable GH_BOT_UID : Z.

Lemma read_only_not_commit es :
  forallb read_only es = true -> List.filter is_commit es = [].
Proof.
  induction es as [|e es IH]; simpl; [reflexivity|].
  intros [He Hes]%andb_prop. rewrite (IH Hes).
  destruct e; try discriminate; reflexivity.
Qed.

(** C8. When the first line of the model's answer does not begin with
    the marker, splitting raises [IndexError] (the last element of an
    empty list is asked for), the freeform edit ends with that error
    in the world the answer was received in, and no commit has been
    created since the edit began. *)
Theorem unmarked_first_line_fails repo cmd w resp w1 l ls :
  freeform_response repo cmd w = (Ok resp, w1) ->
  splitlines resp = l :: ls ->
  startswith _RESP_PATH_PREFIX l = false ->
  split_response resp = Raise IndexError
  /\ _make_freeform_changes repo cmd w = (Raise IndexError, w1)
  /\ List.filter is_commit (trace w1) = List.filter is_commit (trace w).
Proof.
  intros Hresp Hlines Hl.
  assert (Hsplit : split_response resp = Raise IndexError).
  { unfold split_response. rewrite Hlines. cbn [split_response_lines].
    now rewrite Hl. }
  split; [exact Hsplit|]. split.
  - unfold _make_freeform_changes, bind at 1. rewrite Hresp.
    unfold bind, lift. now rewrite Hsplit.
  - destruct (appends_freeform_response repo cmd w) as (es & Ht & Hes).
    rewrite Hresp in Ht. simpl in Ht.
    rewrite Ht, List.filter_app, (read_only_not_commit _ Hes).
    now rewrite app_nil_r.
Qed.

(** C7. With a non-empty list of targets [_make_changes] takes the
    targeted path, which returns at once in an unchanged world; with
    no targets ([None] or an empty list) it takes the freeform path,
    which never does that.  So the targeted path is taken exactly when
    targets are present and non-empty. *)
Theorem make_changes_dispatch repo cmd w :
  (forall t ts, targets cmd = Some (t :: ts) ->
     _make_changes repo cmd w = _make_targeted_changes w
     /\ _make_changes repo cmd w = (Ok tt, w))
  /\ (targets cmd = None \/ targets cmd = Some [] ->
      _make_changes repo cmd w = _make_freeform_changes repo cmd w
      /\ _make_changes repo cmd w <> (Ok tt, w))
  /\ (_make_changes repo cmd w = (Ok tt, w)
      <-> exists t ts, targets cmd = Some (t :: ts)).
Proof.
  assert (Hfree : _make_freeform_changes repo cmd w <> (Ok tt, w)).
  { destruct (freeform_changes_first_call repo cmd w) as [-> | (es & Ht)];
      [discriminate|].
    intros Heq. rewrite Heq in Ht. simpl in Ht.
    apply (f_equal length) in Ht. rewrite List.length_app in Ht.
    simpl in Ht. lia. }
  unfold _make_changes.
  destruct (targets cmd) as [[|t ts]|] eqn:Ht; simpl.
  - split; [intros ? ? [=]|]. split; [intros _; split; [reflexivity|exact Hfree]|].
    split; [intros Heq; now apply Hfree in Heq|intros (? & ? & [=])].
  - split; [intros ? ? _; split; reflexivity|].
    split; [intros [[=]|[=]]|]. split; [eauto|reflexivity].
  - split; [intros ? ? [=]|]. split; [intros _; split; [reflexivity|exact Hfree]|].
    split; [intros Heq; now apply Hfree in Heq|intros (? & ? & [=])].
Qed.

(** After the two guards nothing is changed either: [_make_changes] is
    called with one argument and raises before its body runs. *)
Lemma pr_comment_changes_raises repo ev w :
  exists e, pr_comment_changes repo ev w = (Raise e, w).
Proof.
  unfold pr_comment_changes, bind, lift.
  destruct (int_of_json _) as [start|e]; [|eauto].
  destruct (int_of_json _) as [stop|e]; [|eauto].
  exists TypeError. reflexivity.
Qed.

End HandlerProps.

(** The handlers on the sample world. *)
Section HandlerExamples.
Import PyStr Eff Github Sample.

Local Abbreviation chatty := (index_lib "Sure! Here is the updated file.").
Local Abbreviation freeform_cmd :=
  {| repo := repository; command := "Rename foo to bar";
     branch := "bot/issue-7"; targets := None; pr := None |}.
Local Abbreviation targeted_cmd :=
  {| repo := repository; command := "Rename foo to bar";
     branch := "bot/issue-7";
     targets := Some [ {| path := "src/f.py"; commit := "abc123";
                          block := (3%Z, 5%Z) |} ];
     pr := None |}.
Local Abbreviation review_comment opener author :=
  {| payload :=
       {| pull_request_user_id := opener;
          pull_request_head_ref := "bot/issue-7";
          pull_request_number := 8; comment_user_id := author;
          comment_path := "src/f.py"; comment_commit_id := "abc123";
          comment_body := "Use a constant here"; start_line := None;
          line := Some 4%Z |} |}.

Lemma unmarked_first_line_fails_witness :
  fst (@_make_freeform_changes seconds chatty github repository freeform_cmd
         empty_world) = Raise IndexError
  /\ List.filter is_commit
       (trace (snd (@_make_freeform_changes seconds chatty github repository
                      freeform_cmd empty_world))) = [].
Proof.
  destruct (unmarked_first_line_fails (H := seconds) (H0 := chatty)
              (H1 := github) repository freeform_cmd empty_world
              "Sure! Here is the updated file."
              (snd (@freeform_response seconds chatty github repository
                      freeform_cmd empty_world))
              "Sure! Here is the updated file." [])
    as (_ & Hrun & Hcommits).
  - vm_compute. reflexivity.
  - reflexivity.
  - reflexivity.
  - rewrite Hrun. split; [reflexivity|exact Hcommits].
Defined.

Lemma make_changes_dispatch_witness :
  @_make_changes seconds chatty github repository targeted_cmd empty_world
  = (Ok tt, empty_world)
  /\ @_make_changes seconds chatty github repository freeform_cmd empty_world
     <> (Ok tt, empty_world).
Proof.
  split.
  - apply (proj1 (make_changes_dispatch (H := seconds) (H0 := chatty)
                    (H1 := github) repository targeted_cmd empty_world)
             {| path := "src/f.py"; commit := "abc123"; block := (3%Z, 5%Z) |}
             []).
    reflexivity.
  - apply (proj1 (proj2 (make_changes_dispatch (H := seconds) (H0 := chatty)
                           (H1 := github) repository freeform_cmd
                           empty_world))).
    left. reflexivity.
Defined.

(** C3. github.py does not compile (line 150), so an issue event
    gets the compiler's [SyntaxError] and no statement of the handler
    runs: no commit, no ref update, no pull request.  The write loop
    on its own, given two files, creates the first commit, raises
    [TypeError] at the call that should advance the branch, and never
    reaches the second. *)
Theorem issue_handler_stops_before_any_write :
  @handle_issues_opened seconds IssuePayload repository
    {| payload := {| issue_body := Some "Please rename foo to bar";
                     issue_number := 7; issue_title := "Rename foo" |} |}
    empty_world
  = (Raise SyntaxError, empty_world)
  /\
  let out :=
    @write_output_files seconds github repository freeform_cmd
      [ {| of_path := "a.py"; of_content := "" |};
        {| of_path := "b.py"; of_content := "" |} ]
      None empty_world in
  fst out = Raise TypeError
  /\ trace (snd out)
     = [ GetBranch "bot/issue-7";
         CreateGitTree "a.py" "100644" "blob" "" {| tree_sha := "t0" |};
         CreateGitCommit "Update a.py" {| tree_sha := "t1" |}
           [head_commit] ]
  /\ List.filter is_ref_update (trace (snd out)) = []
  /\ List.filter is_pull (trace (snd out)) = [].
Proof. repeat split; vm_compute; reflexivity. Qed.

(** C9. The guards are never reached: the handler subscripts the
    event object, which raises [TypeError] on line 160.  A comment on
    somebody else's pull request and a comment written by the bot
    itself, with the bot's id 42, both end in [TypeError] and not in
    [AssertionError]; no outside call is made. *)
Theorem pr_comment_raises_before_the_guards :
  @handle_pr_comment seconds chatty github 42 repository
    (review_comment 5 6) empty_world
  = (Raise TypeError, empty_world)
  /\ @handle_pr_comment seconds chatty github 42 repository
       (review_comment 42 42) empty_world
     = (Raise TypeError, empty_world).
Proof. split; reflexivity. Qed.

End HandlerExamples.

(** * Further properties of the code *)

(** ** The target extractor, read backwards and line by line *)

Section TargetsMore.
Import PyStr Re Eff Github Permalink Shapes.

Lemma strip_prefix_inv p s s' : strip_prefix p s = Some s' -> s = p +:+ s'.
Proof.
  revert s. induction p as [|a p IH]; intros s; simpl.
  - now intros [= <-].
  - destruct s as [|b s]; [discriminate|].
    destruct (Ascii.eqb_spec a b) as [->|]; [|discriminate].
    intros Hs. now rewrite (IH _ Hs).
Qed.

Lemma star_k_inv {R} cls s (k : string -> option R) r :
  star_k cls s k = Some r ->
  exists w rest, s = w +:+ rest /\ all_chars cls w = true /\ k rest = Some r.
Proof.
  induction s as [|c s IH]; simpl.
  - intros Hk. exists "", "". auto.
  - destruct (cls c) eqn:Hc.
    + destruct (star_k cls s k) as [r'|] eqn:Hs.
      * intros [= ->]. destruct (IH eq_refl) as (w & rest & -> & Hw & Hk).
        exists (String c w), rest. simpl. rewrite Hc, Hw. auto.
      * intros Hk. exists "", (String c s). auto.
    + intros Hk. exists "", (String c s). auto.
Qed.

Lemma plus_k_inv {R} cls s (k : string -> option R) r :
  plus_k cls s k = Some r ->
  exists w rest, s = w +:+ rest /\ run_of cls w = true /\ k rest = Some r.
Proof.
  destruct s as [|c s]; simpl; [discriminate|].
  destruct (cls c) eqn:Hc; [|discriminate].
  intros (w & rest & -> & Hw & Hk)%star_k_inv.
  exists (String c w), rest. unfold run_of. simpl. rewrite Hc, Hw. auto.
Qed.

Lemma star_k_total {R} cls s (k : string -> option R) :
  (forall s', k s' <> None) -> star_k cls s k <> None.
Proof.
  intros Hk. induction s as [|c s IH]; simpl; [apply Hk|].
  destruct (cls c); [|apply Hk].
  destruct (star_k cls s k); [discriminate|contradiction].
Qed.

(** When the rest of the pattern cannot fail, a greedy run takes every
    character of the class there is. *)
Lemma star_k_inv_max {R} cls s (k : string -> option R) r :
  (forall s', k s' <> None) ->
  star_k cls s k = Some r ->
  exists w rest, s = w +:+ rest /\ all_chars cls w = true
                 /\ stops cls rest = true /\ k rest = Some r.
Proof.
  intros Htotal. induction s as [|c s IH]; simpl.
  - intros Hk. exists "", "". auto.
  - destruct (cls c) eqn:Hc.
    + destruct (star_k cls s k) as [r'|] eqn:Hs.
      * intros [= ->].
        destruct (IH eq_refl) as (w & rest & -> & Hw & Hstop & Hk).
        exists (String c w), rest. simpl. rewrite Hc, Hw. auto.
      * now apply star_k_total in Hs.
    + intros Hk. exists "", (String c s). simpl. rewrite Hc. auto.
Qed.

Lemma plus_k_inv_max {R} cls s (k : string -> option R) r :
  (forall s', k s' <> None) ->
  plus_k cls s k = Some r ->
  exists w rest, s = w +:+ rest /\ run_of cls w = true
                 /\ stops cls rest = true /\ k rest = Some r.
Proof.
  intros Htotal. destruct s as [|c s]; simpl; [discriminate|].
  destruct (cls c) eqn:Hc; [|discriminate].
  intros (w & rest & -> & Hw & Hstop & Hk)%star_k_inv_max; [|exact Htotal].
  exists (String c w), rest. unfold run_of. simpl. rewrite Hc, Hw. auto.
Qed.

(** With such a rest, a run that fails had no character to take. *)
Lemma plus_k_none {R} cls s (k : string -> option R) :
  (forall s', k s' <> None) -> plus_k cls s k = None -> stops cls s = true.
Proof.
  intros Htotal. destruct s as [|c s]; simpl; [reflexivity|].
  destruct (cls c); [|reflexivity].
  intros Hs. now apply star_k_total in Hs.
Qed.

(** Every match of the pattern has the shape of a permalink line, with
    some character other than LF where the dot is, and the numbers it
    captures are whole: no digit follows them, and a match without an
    end line is not followed by one. *)
Lemma match_inv line caps :
  re_match _target_regex line = Some caps ->
  exists dot owner repo commit path start stop rest,
    line = hosted_line dot owner repo commit path start stop rest
    /\ Ascii.eqb dot LF = false
    /\ run_of not_slash owner = true /\ run_of not_slash repo = true
    /\ run_of not_slash commit = true /\ run_of not_hash path = true
    /\ run_of is_digit start = true
    /\ stops is_digit rest = true
    /\ match stop with
       | Some e =>
           run_of is_digit e = true
           /\ caps = [("end", e); ("start", start); ("path_str", path);
                      ("commit", commit)]
       | None =>
           names_end rest = false
           /\ caps = [("start", start); ("path_str", path);
                      ("commit", commit)]
       end.
Proof.
  unfold re_match. cbv [_target_regex seq]. cbn [rmatch]. intros Hm.
  destruct (strip_prefix "https://github" line) as [s0|] eqn:E0;
    [|discriminate].
  apply strip_prefix_inv in E0 as ->.
  destruct s0 as [|dot s1]; [discriminate|].
  destruct (Ascii.eqb dot LF) eqn:Hdot; [discriminate|].
  destruct (strip_prefix "com/" s1) as [s2|] eqn:E1; [|discriminate].
  apply strip_prefix_inv in E1 as ->.
  apply plus_k_inv in Hm as (owner & s3 & -> & Ho & Hm).
  destruct (strip_prefix "/" s3) as [s4|] eqn:E2; [|discriminate].
  apply strip_prefix_inv in E2 as ->.
  apply plus_k_inv in Hm as (repo & s5 & -> & Hr & Hm).
  destruct (strip_prefix "/blob/" s5) as [s6|] eqn:E3; [|discriminate].
  apply strip_prefix_inv in E3 as ->.
  apply plus_k_inv in Hm as (commit & s7 & -> & Hc & Hm).
  destruct (strip_prefix "/" s7) as [s8|] eqn:E4; [|discriminate].
  apply strip_prefix_inv in E4 as ->.
  apply plus_k_inv in Hm as (path & s9 & -> & Hp & Hm).
  destruct (strip_prefix "#L" s9) as [s10|] eqn:E5; [|discriminate].
  apply strip_prefix_inv in E5 as ->.
  apply plus_k_inv_max in Hm as (start & s11 & -> & Hs & Hstop & Hm).
  2:{ intros s'. destruct (strip_prefix "-L" s') as [s''|];
        [destruct (plus_k is_digit s'' _)|]; discriminate. }
  rewrite !consumed_app in Hm.
  destruct (strip_prefix "-L" s11) as [s12|] eqn:E6.
  - apply strip_prefix_inv in E6 as ->.
    destruct (plus_k is_digit s12 _) as [caps'|] eqn:E7.
    + apply plus_k_inv_max in E7 as (e & rest & -> & He & Hrest & Hk);
        [|discriminate].
      rewrite consumed_app in Hk. injection Hk as <-. injection Hm as <-.
      exists dot, owner, repo, commit, path, start, (Some e), rest.
      repeat split; assumption.
    + injection Hm as <-. apply plus_k_none in E7; [|discriminate].
      exists dot, owner, repo, commit, path, start, None, ("-L" +:+ s12).
      repeat split; try assumption.
      unfold names_end. rewrite strip_prefix_app.
      destruct s12 as [|c s12]; [reflexivity|].
      simpl in E7. now apply negb_true_iff in E7.
  - injection Hm as <-.
    exists dot, owner, repo, commit, path, start, None, s11.
    repeat split; try assumption.
    unfold names_end. now rewrite E6.
Qed.

Lemma int_from_nonneg acc s :
  (0 <= acc)%Z -> all_chars is_digit s = true -> (0 <= int_from acc s)%Z.
Proof.
  revert acc. induction s as [|c s IH]; intros acc Hacc; simpl; [auto|].
  intros [Hc Hs]%andb_prop. apply IH; [|exact Hs].
  unfold is_digit in Hc. apply andb_prop in Hc as [Hlo _].
  apply N.leb_le in Hlo. unfold digit_value. lia.
Qed.

Lemma int_nonneg s : run_of is_digit s = true -> (0 <= int s)%Z.
Proof.
  intros [_ Hs]%andb_prop. now apply int_from_nonneg.
Qed.

(** X1. Every extracted target comes from a line of the body that
    begins with a permalink (any character but LF standing for the dot
    of the host).  Its commit is a non-empty run without a slash, its
    path a non-empty run without a hash sign, and its block is made of
    the numbers the link names, whole: the start is a run of digits
    that no digit follows, the end likewise when there is one, and
    when there is none the link does not go on with an end line.
    Neither number is negative. *)
Theorem extracted_target_shape haystack t :
  t ∈ _get_targets_from_body haystack ->
  exists line dot owner repo start stop rest,
    line ∈ splitlines haystack
    /\ line = hosted_line dot owner repo (commit t) (path t) start stop rest
    /\ run_of not_slash owner = true /\ run_of not_slash repo = true
    /\ run_of not_slash (commit t) = true
    /\ run_of not_hash (path t) = true
    /\ run_of is_digit start = true
    /\ stops is_digit rest = true
    /\ match stop with
       | Some e => run_of is_digit e = true
       | None => names_end rest = false
       end
    /\ block t = (int start,
                  match stop with
                  | Some e => int e
                  | None => (int start + 1)%Z
                  end)
    /\ (0 <= fst (block t))%Z /\ (0 <= snd (block t))%Z.
Proof.
  unfold _get_targets_from_body. intros (line & Hin & Ht)%list_elem_of_omap.
  unfold target_of_line in Ht.
  destruct (re_match _target_regex line) as [caps|] eqn:Hm; [|discriminate].
  apply match_inv in Hm
    as (dot & owner & repo & c & p & start & stop & rest & Hline & _ & Ho & Hr
        & Hc & Hp & Hs & Hrest & Hcaps).
  pose proof (int_nonneg _ Hs) as Hs0.
  destruct stop as [e|].
  - destruct Hcaps as [He ->]. pose proof (int_nonneg _ He) as He0.
    cbn [group String.eqb Ascii.eqb Bool.eqb default] in Ht.
    assert (Hte : truthy (Some e) = true).
    { apply andb_prop in He as [He _]. exact He. }
    rewrite Hte in Ht. injection Ht as <-.
    exists line, dot, owner, repo, start, (Some e), rest.
    cbn [commit path block fst snd]. repeat split; assumption.
  - destruct Hcaps as [Hno ->].
    cbn [group String.eqb Ascii.eqb Bool.eqb default] in Ht.
    change (truthy (@None string)) with false in Ht. injection Ht as <-.
    exists line, dot, owner, repo, start, None, rest.
    cbn [commit path block fst snd]. repeat split; try assumption. lia.
Qed.

Lemma extracted_target_shape_witness :
  exists line dot owner repo start stop rest,
    line ∈ splitlines ("Look:" +:+ nl +:+
                       "https://github.com/octo/demo/blob/abc123/src/f.py#L28-L45")
    /\ line = hosted_line dot owner repo "abc123" "src/f.py" start stop rest
    /\ run_of is_digit start = true
    /\ stops is_digit rest = true
    /\ (28%Z, 45%Z)
       = (int start,
          match stop with
          | Some e => int e
          | None => (int start + 1)%Z
          end).
Proof.
  destruct (extracted_target_shape
              ("Look:" +:+ nl +:+
               "https://github.com/octo/demo/blob/abc123/src/f.py#L28-L45")
              {| path := "src/f.py"; commit := "abc123";
                 block := (28%Z, 45%Z) |})
    as (line & dot & owner & repo & start & stop & rest & Hin & Hline & _ & _
        & _ & _ & Hs & Hrest & _ & Hblock & _).
  - vm_compute. apply list_elem_of_In. left. reflexivity.
  - exists line, dot, owner, repo, start, stop, rest. auto.
Defined.

Lemma omap_none {A B} (f : A -> option B) (l : list A) :
  (forall x, x ∈ l -> f x = None) -> omap f l = [].
Proof.
  induction l as [|x l IH]; intros Hl; simpl; [reflexivity|].
  rewrite (Hl x) by (left; reflexivity).
  apply IH. intros y Hy. apply Hl. now right.
Qed.

(** X2. A body none of whose lines begins with [https://github] yields
    no target at all, whatever the lines hold further on. *)
Theorem no_link_at_line_start_no_target haystack :
  (forall line, line ∈ splitlines haystack ->
                startswith "https://github" line = false) ->
  _get_targets_from_body haystack = [].
Proof.
  intros Hl. unfold _get_targets_from_body. apply omap_none.
  intros line Hin. apply target_needs_line_start, Hl, Hin.
Qed.

Lemma no_link_at_line_start_no_target_witness :
  _get_targets_from_body
    ("Fix https://github.com/octo/demo/blob/abc123/src/f.py#L3" +:+ nl +:+
     " https://github.com/octo/demo/blob/abc123/src/g.py#L9") = [].
Proof.
  apply no_link_at_line_start_no_target.
  intros line Hin. apply list_elem_of_In in Hin. vm_compute in Hin.
  destruct Hin as [<- | [<- | []]]; reflexivity.
Defined.

(** X3. Each line gives at most one target: there are never more
    targets than lines. *)
Theorem at_most_one_target_per_line haystack :
  length (_get_targets_from_body haystack) <= length (splitlines haystack).
Proof.
  unfold _get_targets_from_body.
  induction (splitlines haystack) as [|line lines IH]; [reflexivity|].
  change (omap target_of_line (line :: lines))
    with (match target_of_line line with
          | Some t => t :: omap target_of_line lines
          | None => omap target_of_line lines
          end).
  destruct (target_of_line line); cbn [length]; lia.
Qed.

(** X4. The dot of the host name is not escaped in the pattern: a
    line that has any character other than LF in its place is taken
    for a permalink all the same. *)
Theorem any_character_passes_for_the_dot
  dot owner repo commit path start stop rest :
  Ascii.eqb dot LF = false ->
  run_of not_slash owner = true -> run_of not_slash repo = true ->
  run_of not_slash commit = true -> run_of not_hash path = true ->
  run_of is_digit start = true -> stops is_digit rest = true ->
  match stop with
  | Some e => run_of is_digit e = true
  | None => names_end rest = false
  end ->
  target_of_line (hosted_line dot owner repo commit path start stop rest)
  = Some {| path := path; commit := commit;
            block := (int start,
                      match stop with
                      | Some e => int e
                      | None => (int start + 1)%Z
                      end) |}.
Proof.
  intros Hdot [? ?]%run_of_inv [? ?]%run_of_inv [? ?]%run_of_inv
         [? ?]%run_of_inv [? ?]%run_of_inv Hrest Hstop.
  assert (Hm : re_match _target_regex
                 (hosted_line dot owner repo commit path start stop rest)
               = Some (match stop with
                       | Some e => [("end", e)]
                       | None => []
                       end ++ [("start", start); ("path_str", path);
                               ("commit", commit)])%list).
  { unfold re_match, hosted_line. cbv [_target_regex seq]. cbn [rmatch].
    rewrite strip_prefix_app, Hdot, strip_prefix_app.
    apply plus_k_run; [assumption..|reflexivity|]. rewrite strip_prefix_app.
    apply plus_k_run; [assumption..|reflexivity|]. rewrite strip_prefix_app.
    apply plus_k_run; [assumption..|reflexivity|]. rewrite strip_prefix_app.
    apply plus_k_run; [assumption..|reflexivity|]. rewrite strip_prefix_app.
    destruct stop as [e|].
    - apply run_of_inv in Hstop as [? ?].
      apply plus_k_run; [assumption..|reflexivity|].
      rewrite strip_prefix_app.
      erewrite plus_k_run; [|assumption..|reflexivity].
      now rewrite !consumed_app.
    - apply plus_k_run; [assumption..|].
      rewrite !consumed_app. unfold names_end in Hstop.
      destruct (strip_prefix "-L" rest) as [[|c s']|]; try reflexivity.
      cbn [plus_k]. now rewrite Hstop. }
  unfold target_of_line. rewrite Hm. destruct stop as [e|].
  - cbn [app group String.eqb Ascii.eqb Bool.eqb default].
    apply run_of_inv in Hstop as [He _].
    destruct e; [congruence|reflexivity].
  - reflexivity.
Qed.

Lemma any_character_passes_for_the_dot_witness :
  target_of_line "https://github_com/octo/demo/blob/abc123/src/f.py#L3-L5"
  = Some {| path := "src/f.py"; commit := "abc123"; block := (3%Z, 5%Z) |}.
Proof.
  exact (any_character_passes_for_the_dot "_" "octo" "demo" "abc123"
           "src/f.py" "3" (Some "5") "" eq_refl eq_refl eq_refl eq_refl
           eq_refl eq_refl eq_refl eq_refl).
Defined.

Lemma splitlines_join a :
  forall flag b, exists L,
    splitlines_from flag (a +:+ String LF b) = (L ++ splitlines b)%list
    /\ (L = splitlines_from flag a
        \/ L = (splitlines_from flag a ++ [""])%list)
    /\ (flag = false -> L <> []).
Proof.
  induction a as [|c a IH]; intros flag b.
  - destruct flag.
    + exists []. repeat split; [now left|discriminate].
    + exists [""]. repeat split; [now right|discriminate].
  - change (String c a +:+ String LF b) with (String c (a +:+ String LF b)).
    cbn [splitlines_from].
    destruct (flag && Ascii.eqb c LF) eqn:E.
    + destruct (IH false b) as (L & HL & Hor & _). exists L.
      repeat split; [exact HL|exact Hor|].
      intros ->. discriminate.
    + destruct (is_linebreak c).
      * destruct (IH (Ascii.eqb c CR) b) as (L & HL & Hor & _).
        exists ("" :: L). rewrite HL. repeat split; [|discriminate].
        destruct Hor as [-> | ->]; [now left|now right].
      * destruct (IH false b) as (L & HL & Hor & Hne).
        specialize (Hne eq_refl). rewrite HL.
        destruct L as [|l0 L]; [congruence|].
        exists (String c l0 :: L). repeat split; [|discriminate].
        destruct (splitlines_from false a) as [|s0 S].
        -- destruct Hor as [[=] | [= -> ->]]. now left.
        -- destruct Hor as [[= -> ->] | [= -> ->]]; [now left|now right].
Qed.

(** X5. Extraction works line by line: the targets of two texts
    joined by a newline are the targets of the first followed by the
    targets of the second. *)
Theorem targets_of_joined_texts a b :
  _get_targets_from_body (a +:+ nl +:+ b)
  = (_get_targets_from_body a ++ _get_targets_from_body b)%list.
Proof.
  unfold _get_targets_from_body, splitlines.
  change (nl +:+ b) with (String LF b).
  destruct (splitlines_join a false b) as (L & -> & Hor & _).
  rewrite omap_app. f_equal.
  destruct Hor as [-> | ->]; [reflexivity|].
  rewrite omap_app. change (omap target_of_line [""]) with (@nil EditTarget).
  now rewrite app_nil_r.
Qed.

End TargetsMore.

(** ** The response splitter, whenever it returns *)

Section SplitterMore.
Import PyStr Eff Github.

Lemma append_nil_r (s : string) : s +:+ "" = s.
Proof.
  induction s as [|c s IH]; [reflexivity|].
  change (String c s +:+ "") with (String c (s +:+ "")). now f_equal.
Qed.

Lemma append_assoc (a b c : string) : (a +:+ b) +:+ c = a +:+ (b +:+ c).
Proof.
  induction a as [|x a IH]; [reflexivity|].
  change (String x ((a +:+ b) +:+ c) = String x (a +:+ (b +:+ c))).
  now f_equal.
Qed.

Lemma split_from_nonempty sep s : forall k cur, split_from sep k cur s <> [].
Proof.
  induction s as [|c s IH]; intros k cur; simpl; [discriminate|].
  destruct k; [|apply IH].
  destruct (startswith sep (String c s)); [discriminate|apply IH].
Qed.

(** A text that splits into one piece is that piece. *)
Lemma split_from_single sep s :
  forall cur x, split_from sep 0 cur s = [x] -> x = cur +:+ s.
Proof.
  induction s as [|c s IH]; intros cur x; simpl.
  - intros [= <-]. now rewrite append_nil_r.
  - destruct (startswith sep (String c s)).
    + intros [= _ Hrest]. now apply split_from_nonempty in Hrest.
    + intros Hx%IH. now rewrite Hx, append_assoc.
Qed.

Lemma startswith_inv p s :
  startswith p s = true -> exists rest, s = p +:+ rest.
Proof.
  revert s. induction p as [|a p IH]; intros s; simpl.
  - exists s. reflexivity.
  - destruct s as [|b s]; [discriminate|].
    intros [Hab Hs]%andb_prop. apply Ascii.eqb_eq in Hab as ->.
    destruct (IH _ Hs) as (rest & ->). now exists rest.
Qed.

(** A marker line that unpacks into two names is the marker followed
    by the second name. *)
Lemma marker_line_key line a key :
  startswith _RESP_PATH_PREFIX line = true ->
  split _RESP_PATH_PREFIX line = [a; key] ->
  line = _RESP_PATH_PREFIX +:+ key.
Proof.
  intros (rest & ->)%startswith_inv. unfold split, _RESP_PATH_PREFIX.
  cbn [append split_from startswith Ascii.eqb Bool.eqb andb String.length
       Nat.sub].
  change (("%%%" +:+ rest)) with (String "%" (String "%" (String "%" rest))).
  cbn [split_from startswith Ascii.eqb Bool.eqb andb String.length Nat.sub].
  intros [= _ Hkey]. apply split_from_single in Hkey. now subst key.
Qed.

Lemma split_lines_markers lines :
  forall acc files,
    split_response_lines lines acc = Ok files ->
    exists new,
      files = (acc ++ new)%list
      /\ Forall2 (fun line f =>
                    exists key, line = _RESP_PATH_PREFIX +:+ key
                                /\ f = {| of_path := strip key;
                                          of_content := "" |})
           lines new.
Proof.
  induction lines as [|line lines IH]; intros acc files;
    cbn [split_response_lines].
  - intros [= <-]. exists []. rewrite app_nil_r. split; constructor.
  - destruct (startswith _RESP_PATH_PREFIX line) eqn:Hm.
    + destruct (split _RESP_PATH_PREFIX line) as [|a [|key [|? ?]]] eqn:Hs;
        try discriminate.
      intros (new & -> & Hnew)%IH.
      exists ({| of_path := strip key; of_content := "" |} :: new).
      rewrite <- app_assoc. split; [reflexivity|].
      constructor; [|exact Hnew].
      exists key. split; [|reflexivity].
      eapply marker_line_key; eassumption.
    + destruct (last_item acc); discriminate.
Qed.

(** X6. Whenever the splitter returns, every line of the answer was a
    marker line, and the pairs are, in order, the stripped remainders
    of the lines, each with empty content: an answer that has any other
    line is never split. *)
Theorem split_response_returns_markers_only resp files :
  split_response resp = Ok files ->
  Forall2 (fun line f =>
             exists key, line = _RESP_PATH_PREFIX +:+ key
                         /\ f = {| of_path := strip key; of_content := "" |})
    (splitlines resp) files.
Proof.
  intros (new & -> & Hnew)%split_lines_markers. exact Hnew.
Qed.

Lemma split_response_returns_markers_only_witness :
  Forall2 (fun line f =>
             exists key, line = _RESP_PATH_PREFIX +:+ key
                         /\ f = {| of_path := strip key; of_content := "" |})
    (splitlines ("%%% src/app.py" +:+ nl +:+ "%%% lib/util.py"))
    [ {| of_path := "src/app.py"; of_content := "" |};
      {| of_path := "lib/util.py"; of_content := "" |} ].
Proof.
  apply split_response_returns_markers_only. vm_compute. reflexivity.
Defined.

Lemma rstrip_idem s : rstrip (rstrip s) = rstrip s.
Proof.
  induction s as [|c s IH]; simpl; [reflexivity|].
  destruct (rstrip s) as [|d r] eqn:Hr.
  - destruct (is_space c) eqn:Hc; simpl; [reflexivity|now rewrite Hc].
  - change (rstrip (String c (String d r)))
      with (match rstrip (String d r) with
            | "" => if is_space c then "" else String c ""
            | r' => String c r'
            end).
    now rewrite IH.
Qed.

Lemma rstrip_keeps_head c s :
  is_space c = false -> exists s', rstrip (String c s) = String c s'.
Proof.
  intros Hc. simpl. destruct (rstrip s); rewrite ?Hc; eauto.
Qed.

Lemma lstrip_head s :
  lstrip s = "" \/ exists c t, lstrip s = String c t /\ is_space c = false.
Proof.
  induction s as [|c s IH]; simpl; [now left|].
  destruct (is_space c) eqn:Hc; [exact IH|]. right. eauto.
Qed.

Lemma strip_idem s : strip (strip s) = strip s.
Proof.
  unfold strip. destruct (lstrip_head s) as [-> | (c & t & -> & Hc)];
    [reflexivity|].
  destruct (rstrip_keeps_head c t Hc) as (t' & Ht). rewrite Ht.
  cbn [lstrip]. rewrite Hc, <- Ht. apply rstrip_idem.
Qed.

(** X7. The paths the splitter returns carry no surrounding
    whitespace: stripping one again changes nothing. *)
Theorem split_response_paths_are_stripped resp files f :
  split_response resp = Ok files -> f ∈ files ->
  strip (of_path f) = of_path f.
Proof.
  intros (new & -> & Hnew)%split_lines_markers Hf.
  rewrite app_nil_l in Hf.
  induction Hnew as [|line g lines new (key & _ & ->) _ IH].
  - inversion Hf.
  - apply elem_of_cons in Hf as [-> | Hf]; [apply strip_idem|now apply IH].
Qed.

Lemma split_response_paths_are_stripped_witness :
  strip "src/app.py" = "src/app.py".
Proof.
  apply (split_response_paths_are_stripped
           ("%%%   src/app.py  " +:+ nl +:+ "%%% lib/util.py")
           [ {| of_path := "src/app.py"; of_content := "" |};
             {| of_path := "lib/util.py"; of_content := "" |} ]
           {| of_path := "src/app.py"; of_content := "" |}).
  - vm_compute. reflexivity.
  - left.
Defined.

End SplitterMore.

(** ** The cache layer: reads, writes and what they leave alone *)

Section LoaderMore.
Import Eff Loader.
Context `{TimeOps} `{IndexLib}.

Lemma get_cache_ok ext repo_opts cache_opts w :
  exists res, _get_cache ext repo_opts cache_opts w = (Ok res, w).
Proof.
  rewrite get_cache_eval.
  destruct (fs w !! _) as [f|]; [destruct (_ || _)|]; eauto.
Qed.

Lemma bind_get_cache {B} ext repo_opts cache_opts
  (k : option string -> M B) w :
  exists res, bind (_get_cache ext repo_opts cache_opts) k w = k res w.
Proof.
  destruct (get_cache_ok ext repo_opts cache_opts w) as (res & Hget).
  exists res. unfold bind. now rewrite Hget.
Qed.

(** Replaces a read of the cache, wherever the goal binds one, by its
    result [res]. *)
Ltac after_get_cache res :=
  match goal with
  | |- context [Eff.bind (Loader._get_cache ?e ?r ?c) ?k ?w] =>
      let Hres := fresh "Hres" in
      destruct (bind_get_cache e r c k w) as (res & Hres);
      rewrite !Hres; clear Hres; cbv beta
  end.

(** X8. [_get_cache] guards the test that raises.  With no file at
    the cache path it returns [None] in an unchanged world, where
    [_cache_is_usable] on its own raises [FileNotFoundError]; bytes it
    returns are the bytes of the file at the path, in an unchanged
    world; and with [force_update] off it returns the bytes of the
    file at the path whenever there is one. *)
Theorem get_cache_guards_the_missing_file ext repo_opts cache_opts w :
  let p := _get_cache_path repo_opts cache_opts (Some ext) in
  (fs w !! p = None ->
   _get_cache ext repo_opts cache_opts w = (Ok None, w)
   /\ _cache_is_usable p cache_opts w = (Raise FileNotFoundError, w))
  /\ (forall b w',
        _get_cache ext repo_opts cache_opts w = (Ok (Some b), w') ->
        w' = w /\ exists f, fs w !! p = Some f /\ content f = b)
  /\ (force_update cache_opts = false ->
      forall f, fs w !! p = Some f ->
                _get_cache ext repo_opts cache_opts w
                = (Ok (Some (content f)), w)).
Proof.
  intros p. rewrite get_cache_eval. fold p. split; [|split].
  - intros Hf. rewrite Hf. split; [reflexivity|].
    unfold _cache_is_usable, bind, time_time, stat. now rewrite Hf.
  - intros b w'. destruct (fs w !! p) as [f|]; [|discriminate].
    destruct (_ || _); [|discriminate]. intros [= <- <-]. eauto.
  - intros Hforce f ->. now rewrite Hforce, orb_true_r.
Qed.

(** X9. What [_put_cache] stores is what [_get_cache] then returns,
    for the same extension and options, when [force_update] is off or
    a file of age zero counts as fresh: bytes as they are, text as
    its encoding. *)
Theorem put_then_get d ext repo_opts cache_opts w :
  force_update cache_opts = false
  \/ time_lt_int (time_sub (clock w) (clock w)) (max_age cache_opts) = true ->
  let w' := snd (_put_cache d ext repo_opts cache_opts w) in
  _get_cache ext repo_opts cache_opts w'
  = (Ok (Some (match d with Bytes b => b | Text s => encode s end)), w').
Proof.
  intros Hfresh w'. rewrite get_cache_eval.
  unfold w', _put_cache, write_file. cbn [snd fs clock].
  rewrite lookup_insert_eq. cbn [st_mtime content].
  destruct Hfresh as [-> | ->]; [now rewrite orb_true_r|reflexivity].
Qed.

Lemma load_documents_frame repo_opts cache_opts w p :
  p <> _get_cache_path repo_opts cache_opts (Some "docs.pkl") ->
  fs (snd (_load_documents repo_opts cache_opts w)) !! p = fs w !! p
  /\ clock (snd (_load_documents repo_opts cache_opts w)) = clock w.
Proof.
  intros Hp. unfold _load_documents. cbv zeta. after_get_cache res.
  destruct (truthy res); [split; reflexivity|].
  unfold bind, call, _put_cache, write_file, ret.
  destruct (load_data _ _ _ _); cbn [snd fs clock]; [|split; reflexivity].
  rewrite lookup_insert_ne by congruence. split; reflexivity.
Qed.

(** X10. [create_simple_vector_index] writes to the index file and to
    the documents file at most: every other file, and the clock, are
    as they were. *)
Theorem create_index_touches_two_files repo_opts cache_opts model_opts w p :
  p <> _get_cache_path repo_opts cache_opts (Some "sv.idx.json") ->
  p <> _get_cache_path repo_opts cache_opts (Some "docs.pkl") ->
  let w' := snd (create_simple_vector_index repo_opts cache_opts
                   model_opts w) in
  fs w' !! p = fs w !! p /\ clock w' = clock w.
Proof.
  intros Hidx Hdocs w'. unfold w', create_simple_vector_index. cbv zeta.
  after_get_cache res.
  destruct (truthy res); [split; reflexivity|].
  match goal with
  | |- context [bind ?m ?k w] =>
      change (bind m k w)
        with (match m w with
              | (Ok a, w1) => k a w1
              | (Raise e, w1) => (Raise e, w1)
              end)
  end.
  destruct (load_documents_frame repo_opts cache_opts w p Hdocs)
    as [Hfs Hclock].
  destruct (_load_documents repo_opts cache_opts w) as [[docs|e] w1];
    cbn [snd] in *; [|split; assumption].
  unfold bind, call, _put_cache, write_file, ret.
  destruct (from_documents _ _ _); cbn [snd fs clock];
    [|split; assumption].
  rewrite lookup_insert_ne by congruence. split; assumption.
Qed.

(** X11. The cache name does not tell repositories apart when a
    hyphen can sit on either side: owner [a-b] with repository [c] and
    owner [a] with repository [b-c] share one name; so do a branch and
    a commit that are spelled alike. *)
Theorem cache_names_collide a b c s other :
  _get_cache_name (RepoOptions_defaults (a +:+ "-" +:+ b) c)
  = _get_cache_name (RepoOptions_defaults a (b +:+ "-" +:+ c))
  /\ (s <> "" ->
      _get_cache_name (with_branch (RepoOptions_defaults a b) s)
      = _get_cache_name
          {| owner := a; repo := b; branch := other; commit_sha := Some s;
             filter_directories := Some DEFAULT_DIRECTORY_FILTERS;
             filter_file_extensions := Some DEFAULT_FILE_EXT_FILTERS;
             verbose := true; concurrent_requests := 10 |}).
Proof.
  unfold _get_cache_name. cbn [owner repo branch commit_sha
    RepoOptions_defaults with_branch]. split.
  - now rewrite !append_assoc.
  - intros Hs. destruct s; [congruence|reflexivity].
Qed.

(** A non-empty file is read back when [force_update] is off. *)
Lemma get_cache_hit ext repo_opts cache_opts w f :
  force_update cache_opts = false ->
  fs w !! _get_cache_path repo_opts cache_opts (Some ext) = Some f ->
  _get_cache ext repo_opts cache_opts w = (Ok (Some (content f)), w).
Proof.
  intros Hforce Hf. rewrite get_cache_eval, Hf, Hforce.
  now rewrite orb_true_r.
Qed.

Lemma truthy_nonempty (s : string) : s <> "" -> truthy (Some s) = true.
Proof. destruct s; [congruence|reflexivity]. Qed.

(** X12. Documents that were loaded once are not fetched again: after
    [_load_documents] has returned, with [force_update] off and a
    pickle that is never empty, the next call reads the documents file
    and makes no outside call.  The file holds the pickle of the
    documents just returned, unless the first call was already
    answered from the file. *)
Theorem loaded_documents_are_reused repo_opts cache_opts w docs w' :
  force_update cache_opts = false ->
  (forall d, pickle_dumps d <> "") ->
  _load_documents repo_opts cache_opts w = (Ok docs, w') ->
  exists f,
    fs w' !! _get_cache_path repo_opts cache_opts (Some "docs.pkl") = Some f
    /\ _load_documents repo_opts cache_opts w'
       = (pickle_loads (content f), w')
    /\ (content f = pickle_dumps docs
        \/ (w' = w /\ pickle_loads (content f) = Ok docs)).
Proof.
  intros Hforce Hdumps Hfirst.
  assert (Hhit : forall v g,
            fs v !! _get_cache_path repo_opts cache_opts (Some "docs.pkl")
            = Some g ->
            content g <> "" ->
            _load_documents repo_opts cache_opts v
            = (pickle_loads (content g), v)).
  { intros v g Hg Hne. unfold _load_documents, bind at 1.
    rewrite (get_cache_hit _ _ _ _ _ Hforce Hg).
    now rewrite (truthy_nonempty _ Hne). }
  unfold _load_documents, bind at 1 in Hfirst.
  rewrite get_cache_eval in Hfirst.
  destruct (fs w !! _) as [f|] eqn:Hf;
    [rewrite Hforce, orb_true_r in Hfirst;
     destruct (content f) as [|c0 s0] eqn:Hc|].
  2:{ (* answered from the file *)
      cbn [truthy truthy_option truthy_string default] in Hfirst.
      unfold lift in Hfirst. injection Hfirst as Hload <-.
      exists f. split; [exact Hf|]. split.
      - apply Hhit; [exact Hf|]. now rewrite Hc.
      - right. split; [reflexivity|]. rewrite Hc. exact Hload. }
  all: cbn [truthy truthy_option truthy_string] in Hfirst;
    unfold bind, call, _put_cache, write_file, ret in Hfirst;
    destruct (load_data _ _ _ _) as [d|e]; [|discriminate];
    injection Hfirst as <- <-;
    eexists; cbn [fs]; rewrite lookup_insert_eq;
    (split; [reflexivity|]); cbn [content];
    (split; [|now left]);
    match goal with
    | |- _load_documents _ _ ?v = _ =>
        apply (Hhit v {| st_mtime := clock w; content := pickle_dumps d |});
          [cbn [fs]; apply lookup_insert_eq|apply Hdumps]
    end.
Qed.

(** X13. An index that was built once is not built again: after
    [create_simple_vector_index] has returned, with [force_update] off
    and a serialisation that is never empty, the next call loads the
    index file and makes no outside call.  The file holds the
    serialisation of the index just returned, unless the first call
    was already answered from the file. *)
Theorem built_index_is_reused repo_opts cache_opts model_opts w index w' :
  force_update cache_opts = false ->
  (forall i, encode (index_to_json i) <> "") ->
  create_simple_vector_index repo_opts cache_opts model_opts w
  = (Ok index, w') ->
  exists f,
    fs w' !! _get_cache_path repo_opts cache_opts (Some "sv.idx.json")
    = Some f
    /\ create_simple_vector_index repo_opts cache_opts model_opts w'
       = (load_from_string (content f), w')
    /\ (content f = encode (index_to_json index)
        \/ (w' = w /\ load_from_string (content f) = Ok index)).
Proof.
  intros Hforce Hjson Hfirst.
  assert (Hhit : forall v g,
            fs v !! _get_cache_path repo_opts cache_opts (Some "sv.idx.json")
            = Some g ->
            content g <> "" ->
            create_simple_vector_index repo_opts cache_opts model_opts v
            = (load_from_string (content g), v)).
  { intros v g Hg Hne. unfold create_simple_vector_index, bind at 1.
    rewrite (get_cache_hit _ _ _ _ _ Hforce Hg).
    now rewrite (truthy_nonempty _ Hne). }
  unfold create_simple_vector_index, bind at 1 in Hfirst.
  rewrite get_cache_eval in Hfirst.
  destruct (fs w !! _) as [f|] eqn:Hf;
    [rewrite Hforce, orb_true_r in Hfirst;
     destruct (content f) as [|c0 s0] eqn:Hc|].
  2:{ cbn [truthy truthy_option truthy_string default] in Hfirst.
      unfold lift in Hfirst. injection Hfirst as Hload <-.
      exists f. split; [exact Hf|]. split.
      - apply Hhit; [exact Hf|]. now rewrite Hc.
      - right. split; [reflexivity|]. rewrite Hc. exact Hload. }
  all: cbn [truthy truthy_option truthy_string] in Hfirst;
    unfold bind at 1 in Hfirst;
    destruct (_load_documents repo_opts cache_opts w) as [[docs|e] w1];
      [|discriminate];
    unfold bind, call, _put_cache, write_file, ret in Hfirst;
    destruct (from_documents _ _ _) as [i|e]; [|discriminate];
    injection Hfirst as <- <-;
    eexists; cbn [fs]; rewrite lookup_insert_eq;
    (split; [reflexivity|]); cbn [content];
    (split; [|now left]);
    match goal with
    | |- create_simple_vector_index _ _ _ ?v = _ =>
        apply (Hhit v {| st_mtime := clock w1;
                         content := encode (index_to_json i) |});
          [cbn [fs]; apply lookup_insert_eq|apply Hjson]
    end.
Qed.

End LoaderMore.

(** ** The other index builders *)

Section BuildersMore.
Import Eff Loader LoaderRest.
Context `{TimeOps} `{OtherIndexes}.

(** X14. [create_list_index] and [create_knowledge_graph_index] never
    read their own cache file: whenever one returns an index, it has
    just built it from the loaded documents with a [from_documents]
    call, and the cache file holds its serialisation; the graph
    builder falls back on the default options when given [None]. *)
Theorem other_builders_always_rebuild repo_opts w :
  (forall cache_opts model_opts index w',
     create_list_index repo_opts cache_opts model_opts w = (Ok index, w') ->
     exists docs w1,
       _load_documents repo_opts cache_opts w = (Ok docs, w1)
       /\ list_from_documents (trace w1) docs (service_context model_opts)
          = Ok index
       /\ trace w' = (trace w1 ++ [FromDocuments])%list
       /\ fs w' !! _get_cache_path repo_opts cache_opts (Some "l.idx.json")
          = Some {| st_mtime := clock w1;
                    content := encode (list_to_json index) |})
  /\
  (forall cache_opts model_opts index w',
     create_knowledge_graph_index repo_opts cache_opts model_opts w
     = (Ok index, w') ->
     let cache_opts := default CacheOptions_defaults cache_opts in
     let model_opts := default default_model_options model_opts in
     exists docs w1,
       _load_documents repo_opts cache_opts w = (Ok docs, w1)
       /\ graph_from_documents (trace w1) docs (service_context model_opts)
          = Ok index
       /\ trace w' = (trace w1 ++ [FromDocuments])%list
       /\ fs w' !! _get_cache_path repo_opts cache_opts (Some "kg.idx.json")
          = Some {| st_mtime := clock w1;
                    content := encode (graph_to_json index) |}).
Proof.
  split.
  - intros cache_opts model_opts index w'.
    unfold create_list_index. cbv zeta. cbn [Z.eqb]. unfold bind at 1.
    destruct (_load_documents repo_opts cache_opts w) as [[docs|e] w1];
      [|discriminate].
    unfold bind, call, _put_cache, write_file, ret.
    destruct (list_from_documents _ _ _) as [i|e] eqn:Hb; [|discriminate].
    intros [= <- <-]. exists docs, w1. cbn [fs trace].
    rewrite lookup_insert_eq. auto.
  - intros cache_opts model_opts index w'.
    unfold create_knowledge_graph_index. cbv zeta. cbn [Z.eqb].
    unfold bind at 1.
    destruct (_load_documents repo_opts _ w) as [[docs|e] w1];
      [|discriminate].
    unfold bind, call, _put_cache, write_file, ret.
    destruct (graph_from_documents _ _ _) as [i|e] eqn:Hb; [|discriminate].
    intros [= <- <-]. exists docs, w1. cbn [fs trace].
    rewrite lookup_insert_eq. auto.
Qed.

End BuildersMore.

(** ** What the modules require of the environment *)

Section EnvironMore.
Import Eff Environ.

(** X15. When github.py gets past its first lines, both identifiers
    are non-zero numbers read from the environment and both strings
    are the non-empty values of their variables. *)
Theorem github_config_is_checked int_of_str environ cfg :
  github_requires int_of_str environ = Loaded cfg ->
  GH_BOT_UID cfg <> 0%Z /\ GH_APP_ID cfg <> 0%Z
  /\ GH_APP_KEY cfg <> "" /\ GH_USER_AGENT cfg <> ""
  /\ (exists t, environ !! "GH_BOT_UID" = Some t
                /\ int_of_str t = Some (GH_BOT_UID cfg))
  /\ (exists t, environ !! "GH_APP_ID" = Some t
                /\ int_of_str t = Some (GH_APP_ID cfg))
  /\ environ !! "GH_APP_KEY" = Some (GH_APP_KEY cfg)
  /\ environ !! "GH_USER_AGENT" = Some (GH_USER_AGENT cfg).
Proof.
  unfold github_requires, required_int, required_str.
  destruct (environ !! "GH_BOT_UID") as [t1|]; [|discriminate].
  destruct (int_of_str t1) as [n1|] eqn:H1; [|discriminate].
  destruct (truthy n1) eqn:Hn1; [|discriminate]. cbn [and_then].
  destruct (environ !! "GH_APP_ID") as [t2|]; [|discriminate].
  destruct (int_of_str t2) as [n2|] eqn:H2; [|discriminate].
  destruct (truthy n2) eqn:Hn2; [|discriminate]. cbn [and_then].
  destruct (environ !! "GH_APP_KEY") as [k|]; [|discriminate].
  destruct (truthy k) eqn:Hk; [|discriminate]. cbn [and_then].
  destruct (environ !! "GH_USER_AGENT") as [u|]; [|discriminate].
  destruct (truthy u) eqn:Hu; [|discriminate]. cbn [and_then].
  intros [= <-]. cbn [GH_BOT_UID GH_APP_ID GH_APP_KEY GH_USER_AGENT].
  unfold truthy, truthy_Z in Hn1, Hn2.
  apply negb_true_iff, Z.eqb_neq in Hn1. apply negb_true_iff, Z.eqb_neq in Hn2.
  repeat split; eauto; try (intros ->; discriminate).
Qed.

(** X16. Lines 7 and 8 of api.py, for a run that reaches them: the
    default [development] is put in [FLASK_ENV] only when the variable
    is set and empty.  When it is not set, line 7 raises [KeyError];
    past line 8 the variable holds a non-empty value, a non-empty
    value is kept, and no other variable has changed. *)
Theorem flask_env_default_needs_the_variable environ :
  (environ !! "FLASK_ENV" = None ->
   default_flask_env environ = KeyError "FLASK_ENV")
  /\ (forall environ',
        default_flask_env environ = Loaded environ' ->
        (exists v, environ' !! "FLASK_ENV" = Some v /\ v <> "")
        /\ (forall k, k <> "FLASK_ENV" -> environ' !! k = environ !! k)
        /\ (forall v, environ !! "FLASK_ENV" = Some v -> v <> "" ->
                      environ' = environ)).
Proof.
  unfold default_flask_env. split; [now intros ->|].
  intros environ'. destruct (environ !! "FLASK_ENV") as [v|] eqn:Hv;
    [|discriminate].
  destruct v as [|c v]; cbn [truthy truthy_string negb]; intros [= <-].
  - split; [|split].
    + exists "development". rewrite lookup_insert_eq. split; [auto|discriminate].
    + intros k Hk. now rewrite lookup_insert_ne.
    + intros v [= <-] Hne. congruence.
  - split; [|split]; eauto.
Qed.

End EnvironMore.

(** ** The commit writer, the write loop and the handlers *)

Section GithubMore.
Import PyStr Eff Github Shapes.
Context `{TimeOps} `{Loader.IndexLib} `{GithubApi}.
Variable GH_BOT_UID : Z.

Lemma bind_call {A B} e (answer : list event -> result A) (k : A -> M B) w :
  bind (call e answer) k w
  = match answer (trace w) with
    | Ok a => k a {| fs := fs w; clock := clock w; trace := trace w ++ [e] |}
    | Raise x =>
        (Raise x, {| fs := fs w; clock := clock w; trace := trace w ++ [e] |})
    end.
Proof. unfold bind, call. destruct (answer (trace w)); reflexivity. Qed.

(** The calls one run of [_update_file_content] can make. *)
Lemma update_file_content_trace repo cmd path content parent w :
  let out := _update_file_content repo cmd path content parent w in
  exists es,
    trace (snd out) = (trace w ++ es)%list
    /\ fs (snd out) = fs w /\ clock (snd out) = clock w
    /\ Forall (fun e =>
                 match e with
                 | GetBranch b => parent = None /\ b = branch cmd
                 | CreateGitTree p m t c base =>
                     p = path /\ m = "100644" /\ t = "blob" /\ c = content
                     /\ forall q, parent = Some q -> base = tree q
                 | CreateGitCommit msg _ ps =>
                     msg = "Update " +:+ path
                     /\ exists q, ps = [q]
                                  /\ forall q', parent = Some q' -> q = q'
                 | _ => False
                 end) es
    /\ length (List.filter is_commit es) <= 1
    /\ List.filter is_ref_update es = []
    /\ List.filter is_pull es = []
    /\ (forall c, fst out = Ok c -> List.filter is_commit es <> []).
Proof.
  unfold _update_file_content. cbv zeta.
  destruct parent as [q|]; cbn [truthy truthy_GitCommit].
  - unfold bind, call, ret. cbn [trace fs clock].
    destruct (create_git_tree _ _ _ _ _ _ _) as [t|e]; cbn [snd fst trace];
      [destruct (create_git_commit _ _ _ _ _) as [c|e]|];
      rewrite <- ?app_assoc; eexists; (split; [reflexivity|]);
      cbn [List.filter is_commit is_ref_update is_pull length app];
      repeat split; try lia; try discriminate;
      repeat constructor; try (now intros ? [= ->]); eauto.
    all: eexists; split; [reflexivity|]; now intros ? [= ->].
  - unfold bind, call, ret. cbn [trace fs clock].
    destruct (get_branch _ _ _) as [b|e]; cbn [snd fst trace truthy
      truthy_Branch];
      [destruct (create_git_tree _ _ _ _ _ _ _) as [t|e];
       cbn [snd fst trace];
       [destruct (create_git_commit _ _ _ _ _) as [c|e]|]|];
      cbn [snd fst trace];
      rewrite <- ?app_assoc; eexists; (split; [reflexivity|]);
      cbn [List.filter is_commit is_ref_update is_pull length app];
      repeat split; try lia; try discriminate;
      repeat constructor; try discriminate; eauto.
    all: eexists; split; [reflexivity|]; discriminate.
Qed.


(** X18. [_create_or_update_branch] never creates a ref that
    [get_git_ref] did not find: when that call raises, nothing else is
    called.  When it answers, the ref is edited, and a normal return
    then means [create_git_ref] was called on the same branch as
    well. *)
Theorem create_or_update_branch_calls cmd commit_id w :
  let out := _create_or_update_branch cmd commit_id w in
  let found := get_git_ref (trace w) (repo cmd) ("heads/" +:+ branch cmd) in
  (forall e, found = Raise e ->
     fst out = Raise e
     /\ trace (snd out)
        = (trace w ++ [GetGitRef ("heads/" +:+ branch cmd)])%list)
  /\ (forall r, found = Ok r ->
        exists es,
          trace (snd out)
          = (trace w ++ GetGitRef ("heads/" +:+ branch cmd)
                        :: EditRef r commit_id :: es)%list
          /\ (fst out = Ok tt ->
              es = [CreateGitRef ("refs/heads/" +:+ branch cmd) commit_id])).
Proof.
  intros out found. subst out found. unfold _create_or_update_branch.
  rewrite !bind_call. cbv beta.
  destruct (get_git_ref (trace w) (repo cmd) ("heads/" +:+ branch cmd))
    as [r|e]; (split; [|]); try discriminate.
  - intros r' [= <-]. cbn [truthy truthy_GitRef].
    rewrite !bind_call. cbn [trace]. cbv beta.
    destruct (ref_edit _ _ _) as [[]|e].
    + rewrite ?bind_call. cbn [trace].
      destruct (create_git_ref _ _ _ _) as [r'|e]; cbn [snd fst trace ret];
        rewrite <- !app_assoc; eexists; (split; [reflexivity|]);
        [reflexivity|discriminate].
    + cbn [snd fst trace]. rewrite <- !app_assoc. exists [].
      split; [reflexivity|discriminate].
  - intros e' [= <-]. split; reflexivity.
Qed.

(** What the write loop does with its first file. *)
Lemma write_output_files_cons repo cmd f files prev w :
  write_output_files repo cmd (f :: files) prev w
  = match _update_file_content repo cmd (of_path f) (of_content f) prev w with
    | (Ok _, w1) => (Raise TypeError, w1)
    | (Raise e, w1) => (Raise e, w1)
    end.
Proof.
  cbn [write_output_files]. unfold bind at 1.
  change (pycall _update_file_content_sig 5 [] ?body) with body.
  destruct (_update_file_content _ _ _ _ _ w) as [[c|e] w1]; reflexivity.
Qed.

(** X19. Given at least one file, the write loop never returns: it
    raises what the first [_update_file_content] raises, or
    [TypeError] at the ref update right after the first commit.  It
    creates one commit at most, updates no ref, and never reaches the
    second file. *)
Theorem write_loop_stops_at_first_file repo cmd f files prev w :
  let out := write_output_files repo cmd (f :: files) prev w in
  let first := _update_file_content repo cmd (of_path f) (of_content f)
                 prev w in
  snd out = snd first
  /\ (exists e, fst out = Raise e)
  /\ (forall c, fst first = Ok c -> fst out = Raise TypeError)
  /\ exists es,
       trace (snd out) = (trace w ++ es)%list
       /\ length (List.filter is_commit es) <= 1
       /\ List.filter is_ref_update es = [].
Proof.
  intros out first. unfold out. rewrite write_output_files_cons.
  destruct (update_file_content_trace repo cmd (of_path f) (of_content f)
              prev w) as (es & Ht & _ & _ & _ & Hc & Hr & _).
  fold first in Ht |- *.
  destruct first as [[c|e] w1]; cbn [fst snd] in *.
  - repeat split; eauto.
  - repeat split; eauto. discriminate.
Qed.

Lemma read_only_filters es :
  forallb read_only es = true ->
  List.filter is_commit es = [] /\ List.filter is_ref_update es = []
  /\ List.filter is_pull es = [].
Proof.
  induction es as [|e es IH]; simpl; [auto|].
  intros [He Hes]%andb_prop. destruct (IH Hes) as (-> & -> & ->).
  destruct e; try discriminate; auto.
Qed.

Lemma splitlines_nil s : splitlines s = [] -> s = "".
Proof.
  destruct s as [|c s]; [reflexivity|]. unfold splitlines.
  cbn [splitlines_from andb].
  destruct (is_linebreak c); [discriminate|].
  destruct (splitlines_from false s); discriminate.
Qed.

Lemma make_freeform_changes_eval repo cmd w :
  _make_freeform_changes repo cmd w
  = match freeform_response repo cmd w with
    | (Ok resp, w1) =>
        match split_response resp with
        | Ok files => write_output_files repo cmd files None w1
        | Raise e => (Raise e, w1)
        end
    | (Raise e, w1) => (Raise e, w1)
    end.
Proof.
  unfold _make_freeform_changes, bind, lift.
  destruct (freeform_response repo cmd w) as [[resp|e] w1];
    [destruct (split_response resp)|]; reflexivity.
Qed.

(** X20. The freeform edit never edits or creates a ref and never
    opens a pull request; it creates one commit at most.  It returns
    normally only when the language model answered with the empty
    string, and then it has created no commit. *)
Theorem freeform_edit_never_moves_a_ref repo cmd w :
  let out := _make_freeform_changes repo cmd w in
  exists es,
    trace (snd out) = (trace w ++ es)%list
    /\ List.filter is_ref_update es = []
    /\ List.filter is_pull es = []
    /\ length (List.filter is_commit es) <= 1
    /\ (fst out = Ok tt ->
        freeform_response repo cmd w = (Ok "", snd out)
        /\ List.filter is_commit es = []).
Proof.
  intros out. unfold out. rewrite make_freeform_changes_eval.
  destruct (appends_freeform_response repo cmd w) as (es1 & Ht1 & Hro).
  destruct (read_only_filters _ Hro) as (Hc1 & Hr1 & Hp1).
  destruct (freeform_response repo cmd w) as [[resp|e] w1] eqn:Hresp;
    cbn [snd] in Ht1.
  2:{ exists es1. cbn [fst snd]. rewrite Hc1.
      repeat split; auto; try (cbn [length]; lia); try discriminate. }
  destruct (split_response resp) as [files|e] eqn:Hsplit.
  2:{ exists es1. cbn [fst snd]. rewrite Hc1.
      repeat split; auto; try (cbn [length]; lia); try discriminate. }
  destruct files as [|f files].
  - exists es1. cbn [write_output_files ret fst snd]. rewrite Hc1.
    repeat split; auto; try (cbn [length]; lia).
    apply split_lines_markers in Hsplit as (new & Hnew & Hall).
    destruct new; [|discriminate]. inversion Hall as [Hlines|].
    symmetry in Hlines. apply splitlines_nil in Hlines. now subst resp.
  - rewrite write_output_files_cons.
    destruct (update_file_content_trace repo cmd (of_path f) (of_content f)
                None w1) as (es2 & Ht2 & _ & _ & _ & Hc2 & Hr2 & Hp2 & _).
    exists (es1 ++ es2)%list.
    destruct (_update_file_content _ _ _ _ _ w1) as [[c|e] w2];
      cbn [fst snd] in *; rewrite Ht2, Ht1, <- app_assoc,
        !List.filter_app, Hc1, Hr1, Hp1, Hr2, Hp2;
      repeat split; auto; try (cbn [length]; lia); try discriminate.
Qed.

Lemma split_slash_length s :
  forall cur,
    length (split_from "/" 0 cur s) = S (count_char "/" s).
Proof.
  induction s as [|c s IH]; intros cur; [reflexivity|].
  cbn [split_from count_char startswith String.length Nat.sub].
  rewrite Ascii.eqb_sym, andb_true_r.
  destruct (Ascii.eqb c "/"); cbn [length]; now rewrite IH.
Qed.

(** X21. The freeform edit needs a full name with exactly one slash:
    with none or with more than one it raises [ValueError] before any
    call is made; with exactly one, its first call asks GitHub for the
    command's branch. *)
Theorem freeform_edit_needs_owner_and_name repo cmd w :
  let out := _make_freeform_changes repo cmd w in
  (count_char "/" (full_name repo) <> 1 -> out = (Raise ValueError, w))
  /\ (count_char "/" (full_name repo) = 1 ->
      exists es,
        trace (snd out) = (trace w ++ GetBranch (branch cmd) :: es)%list).
Proof.
  intros out.
  pose proof (split_slash_length (full_name repo) "") as Hlen.
  fold (split "/" (full_name repo)) in Hlen.
  unfold out, _make_freeform_changes, freeform_response.
  destruct (split "/" (full_name repo)) as [|a [|b [|c parts]]];
    cbn [length] in Hlen;
    try (split; [reflexivity|intros Hone; lia]).
  split; [intros Hne; lia|intros _].
  rewrite bind_assoc.
  change (bind (ret (a, b)) ?k) with (k (a, b)). cbv beta.
  rewrite bind_assoc.
  change (pycall RepoOptions_sig 0 ["owner"; "repo"] ?body) with body.
  change (bind (ret ?x) ?k) with (k x). cbv beta.
  rewrite bind_assoc, bind_call.
  destruct (get_branch (trace w) repo (branch cmd)) as [b0|e];
    [|exists []; reflexivity].
  match goal with
  | |- context [bind ?m ?k ?w0] =>
      assert (Hrest : appends (fun _ => true) (bind m k))
        by (repeat first
              [ apply appends_create_index; auto
              | apply appends_write_output_files
              | appends_step ]);
      destruct (Hrest w0) as (es & Ht & _)
  end.
  exists es. rewrite Ht. cbn [trace]. now rewrite <- app_assoc.
Qed.

End GithubMore.

(** The further properties on the sample world. *)
Section MoreExamples.
Import PyStr Eff Loader LoaderRest Github Environ Sample SampleRest.

Local Abbreviation lib := (index_lib "").
Local Abbreviation file_at t b := (@Build_file seconds t%Z b).
Local Abbreviation edit :=
  {| repo := repository; command := "Rename foo to bar";
     branch := "bot/issue-7"; targets := None; pr := None |}.

Lemma get_cache_guards_the_missing_file_witness :
  @_get_cache seconds lib "sv.idx.json" repo_opts CacheOptions_defaults
    (cached_world 0 "{}")
  = (Ok (Some "{}"), cached_world 0 "{}")
  /\ @_get_cache seconds lib "sv.idx.json" repo_opts CacheOptions_defaults
       empty_world
     = (Ok None, empty_world).
Proof.
  split.
  - apply (proj2 (proj2 (get_cache_guards_the_missing_file (H := seconds)
                           (H0 := lib) "sv.idx.json" repo_opts
                           CacheOptions_defaults (cached_world 0 "{}")))
             eq_refl (file_at 0 "{}")).
    reflexivity.
  - apply (proj1 (get_cache_guards_the_missing_file (H := seconds)
                    (H0 := lib) "sv.idx.json" repo_opts
                    CacheOptions_defaults empty_world)).
    reflexivity.
Defined.

Lemma put_then_get_witness :
  let w' := snd (@_put_cache seconds lib (Text "{}") "sv.idx.json" repo_opts
                   CacheOptions_defaults empty_world) in
  @_get_cache seconds lib "sv.idx.json" repo_opts CacheOptions_defaults w'
  = (Ok (Some "{}"), w').
Proof.
  apply (put_then_get (H := seconds) (H0 := lib) (Text "{}") "sv.idx.json"
           repo_opts CacheOptions_defaults empty_world).
  left. reflexivity.
Defined.

Lemma create_index_touches_two_files_witness :
  let w := @Build_world seconds {[ "notes.txt" := file_at 5 "keep" ]}
             100%Z [] in
  fs (snd (@create_simple_vector_index seconds lib repo_opts
             CacheOptions_defaults tt w)) !! "notes.txt"
  = Some (file_at 5 "keep").
Proof.
  intros w.
  refine (eq_trans
            (proj1 (create_index_touches_two_files (H := seconds) (H0 := lib)
                      repo_opts CacheOptions_defaults tt w "notes.txt" _ _))
            _).
  - intros Heq. vm_compute in Heq. discriminate Heq.
  - intros Heq. vm_compute in Heq. discriminate Heq.
  - reflexivity.
Defined.

Lemma cache_names_collide_witness :
  _get_cache_name (RepoOptions_defaults "octo-cat" "demo")
  = _get_cache_name (RepoOptions_defaults "octo" "cat-demo")
  /\ _get_cache_name (with_branch (RepoOptions_defaults "octo" "demo") "abc123")
     = "octo-demo-abc123".
Proof.
  split.
  - apply (cache_names_collide "octo" "cat" "demo" "" "").
  - refine (eq_trans (proj2 (cache_names_collide "octo" "demo" "" "abc123"
                               "main") _) _);
      [discriminate|reflexivity].
Defined.

Lemma loaded_documents_are_reused_witness :
  exists f : @file seconds,
    @_load_documents seconds framed_lib repo_opts CacheOptions_defaults
      (snd (@_load_documents seconds framed_lib repo_opts
              CacheOptions_defaults empty_world))
    = (@pickle_loads framed_lib (content f),
       snd (@_load_documents seconds framed_lib repo_opts
              CacheOptions_defaults empty_world)).
Proof.
  destruct (loaded_documents_are_reused (H := seconds) (H0 := framed_lib)
              repo_opts CacheOptions_defaults empty_world ["doc"]
              (snd (@_load_documents seconds framed_lib repo_opts
                      CacheOptions_defaults empty_world)))
    as (f & _ & Hagain & _).
  - reflexivity.
  - discriminate.
  - vm_compute. reflexivity.
  - exists f. exact Hagain.
Defined.

Lemma built_index_is_reused_witness :
  exists f : @file seconds,
    @create_simple_vector_index seconds framed_lib repo_opts
      CacheOptions_defaults tt
      (snd (@create_simple_vector_index seconds framed_lib repo_opts
              CacheOptions_defaults tt empty_world))
    = (@load_from_string framed_lib (content f),
       snd (@create_simple_vector_index seconds framed_lib repo_opts
              CacheOptions_defaults tt empty_world)).
Proof.
  destruct (built_index_is_reused (H := seconds) (H0 := framed_lib)
              repo_opts CacheOptions_defaults tt empty_world "built"
              (snd (@create_simple_vector_index seconds framed_lib repo_opts
                      CacheOptions_defaults tt empty_world)))
    as (f & _ & Hagain & _).
  - reflexivity.
  - discriminate.
  - vm_compute. reflexivity.
  - exists f. exact Hagain.
Defined.

Lemma github_config_is_checked_witness :
  github_requires int_of_digits environ
  = Loaded {| GH_BOT_UID := 42; GH_APP_ID := 7; GH_APP_KEY := "secret";
              GH_USER_AGENT := "alchemy" |}
  /\ (42 <> 0)%Z.
Proof.
  split; [vm_compute; reflexivity|].
  apply (github_config_is_checked int_of_digits environ
           {| GH_BOT_UID := 42; GH_APP_ID := 7; GH_APP_KEY := "secret";
              GH_USER_AGENT := "alchemy" |}).
  vm_compute. reflexivity.
Defined.

Lemma flask_env_default_needs_the_variable_witness :
  default_flask_env (∅ : gmap string string) = KeyError "FLASK_ENV"
  /\ exists v, (<["FLASK_ENV" := "development"]> environ) !! "FLASK_ENV"
               = Some v /\ v <> "".
Proof.
  split.
  - apply (proj1 (flask_env_default_needs_the_variable ∅)). reflexivity.
  - apply (proj2 (flask_env_default_needs_the_variable environ)
             (<["FLASK_ENV" := "development"]> environ)).
    vm_compute. reflexivity.
Defined.

Lemma other_builders_always_rebuild_witness :
  let w := @Build_world seconds
             {[ "~/.alchemy/octo-demo-main.l.idx.json"
                := file_at 99 "cached" ]} 100%Z [] in
  exists docs w1,
    @_load_documents seconds lib repo_opts CacheOptions_defaults w
    = (Ok docs, w1)
    /\ trace (snd (@create_list_index seconds lib (other_indexes "")
                     repo_opts CacheOptions_defaults tt w))
       = (trace w1 ++ [FromDocuments])%list.
Proof.
  intros w.
  destruct (proj1 (other_builders_always_rebuild (H := seconds)
                     (H1 := other_indexes "") repo_opts w)
              CacheOptions_defaults tt "list"
              (snd (@create_list_index seconds lib (other_indexes "")
                      repo_opts CacheOptions_defaults tt w)))
    as (docs & w1 & Hdocs & _ & Htrace & _).
  - vm_compute. reflexivity.
  - exists docs, w1. split; assumption.
Defined.


Lemma create_or_update_branch_calls_witness :
  trace (snd (@_create_or_update_branch seconds github edit "c1" empty_world))
  = [ GetGitRef "heads/bot/issue-7";
      EditRef {| ref := "heads/bot/issue-7" |} "c1";
      CreateGitRef "refs/heads/bot/issue-7" "c1" ].
Proof.
  destruct (proj2 (create_or_update_branch_calls (H := seconds)
                     (H1 := github) edit "c1" empty_world)
              {| ref := "heads/bot/issue-7" |} eq_refl)
    as (es & Ht & Hes).
  rewrite Ht, (Hes eq_refl). reflexivity.
Defined.

Lemma write_loop_stops_at_first_file_witness :
  fst (@write_output_files seconds github repository edit
         [ {| of_path := "a.py"; of_content := "" |};
           {| of_path := "b.py"; of_content := "" |} ]
         None empty_world)
  = Raise TypeError.
Proof.
  apply (proj1 (proj2 (proj2 (write_loop_stops_at_first_file (H := seconds)
                                (H1 := github) repository edit
                                {| of_path := "a.py"; of_content := "" |}
                                [ {| of_path := "b.py"; of_content := "" |} ]
                                None empty_world)))
           {| sha := "c2"; tree := {| tree_sha := "t1" |} |}).
  vm_compute. reflexivity.
Defined.

Lemma freeform_edit_never_moves_a_ref_witness :
  @freeform_response seconds framed_lib github repository edit empty_world
  = (Ok "",
     snd (@_make_freeform_changes seconds framed_lib github repository edit
            empty_world)).
Proof.
  destruct (freeform_edit_never_moves_a_ref (H := seconds) (H0 := framed_lib)
              (H1 := github) repository edit empty_world)
    as (es & _ & _ & _ & _ & Hok).
  apply Hok. vm_compute. reflexivity.
Defined.

Lemma freeform_edit_needs_owner_and_name_witness :
  @_make_freeform_changes seconds lib github
    {| full_name := "demo"; default_branch := "main" |} edit empty_world
  = (Raise ValueError, empty_world)
  /\ @_make_freeform_changes seconds lib github
       {| full_name := "octo/demo/extra"; default_branch := "main" |} edit
       empty_world
     = (Raise ValueError, empty_world).
Proof.
  split.
  - apply (proj1 (freeform_edit_needs_owner_and_name (H := seconds)
                    (H0 := lib) (H1 := github)
                    {| full_name := "demo"; default_branch := "main" |}
                    edit empty_world)).
    vm_compute. lia.
  - apply (proj1 (freeform_edit_needs_owner_and_name (H := seconds)
                    (H0 := lib) (H1 := github)
                    {| full_name := "octo/demo/extra";
                       default_branch := "main" |}
                    edit empty_world)).
    vm_compute. lia.
Defined.

End MoreExamples.
